(** * TaskBD: the theatre simulation's business logic

    A shallow embedding of [controller.py] ([TheaterController]) and of the
    parts of [data.py] ([DatabaseManager]) it calls, followed by the
    properties of contract pricing, performance settlement, the year skip
    and plot deletion.

    Modelling conventions.
    - A PostgreSQL table is a list of rows, in table order.  Columns of type
      INTEGER and BIGINT are unbounded integers ([Z]).
    - Python [float]s are exact rationals ([Q]): the rounding of binary64
      arithmetic is not modelled.  [int(x)] truncates towards zero.
    - [random.random()] reads the next cell of a tape of draws;
      [random.uniform(a, b)] is [a + (b - a) * random()], as in CPython.
    - Every [DatabaseManager] method runs its statements inside
      [try ... except psycopg2.Error]; the embedding follows the [try]
      branch, that is, runs in which the server accepts the statements.
      Python-level exceptions ([ValueError] of [list.index], [TypeError] of
      subscripting [None]) are results of the error monad.
    - Logging has no effect on the state and is left out. *)

From Stdlib Require Import ZArith QArith Qround List String Ascii Bool.
From Stdlib Require Import Lia Lqa Permutation Sorted.
Import ListNotations.

Set Implicit Arguments.

(** ** Python built-ins used by the code *)

Module Py.

Inductive exn : Type := ValueError | TypeError | IndexError.

Inductive res (A : Type) : Type :=
| Ok (a : A)
| Raise (e : exn).
Arguments Ok {A} a.
Arguments Raise {A} e.

Definition res_bind {A B} (r : res A) (k : A -> res B) : res B :=
  match r with
  | Ok a => k a
  | Raise e => Raise e
  end.

(** [l.index(x)]: position of the first occurrence, [ValueError] if none. *)
Fixpoint index (x : string) (l : list string) : res Z :=
  match l with
  | [] => Raise ValueError
  | y :: l' =>
      if String.eqb y x then Ok 0%Z
      else res_bind (index x l') (fun i => Ok (i + 1)%Z)
  end.

(** [x in l] on a list of strings. *)
Definition contains (x : string) (l : list string) : bool :=
  existsb (String.eqb x) l.

(** [int(x)] on a float: truncation towards zero. *)
Definition int (x : Q) : Z := Z.quot (Qnum x) (Zpos (Qden x)).

(** [x < y] on floats. *)
Definition float_lt (x y : Q) : bool := negb (Qle_bool y x).

(** [s.startswith(c)] and [s.endswith(c)] for a one-character [c]. *)
Definition startswith (c : ascii) (s : string) : bool :=
  match s with
  | String a _ => Ascii.eqb a c
  | EmptyString => false
  end.

Fixpoint endswith (c : ascii) (s : string) : bool :=
  match s with
  | EmptyString => false
  | String a EmptyString => Ascii.eqb a c
  | String _ s' => endswith c s'
  end.

Fixpoint drop_last (s : string) : string :=
  match s with
  | EmptyString => EmptyString
  | String _ EmptyString => EmptyString
  | String a s' => String a (drop_last s')
  end.

(** [s[1:-1]] *)
Definition slice_1_m1 (s : string) : string :=
  match s with
  | EmptyString => EmptyString
  | String _ s' => drop_last s'
  end.

(** [s.split(sep)] for a one-character separator. *)
Fixpoint split (sep : ascii) (s : string) : list string :=
  match s with
  | EmptyString => [EmptyString]
  | String a s' =>
      if Ascii.eqb a sep then EmptyString :: split sep s'
      else match split sep s' with
           | [] => [String a EmptyString]
           | w :: ws => String a w :: ws
           end
  end.

Fixpoint lstrip (c : ascii) (s : string) : string :=
  match s with
  | EmptyString => EmptyString
  | String a s' => if Ascii.eqb a c then lstrip c s' else s
  end.

Fixpoint rstrip (c : ascii) (s : string) : string :=
  match s with
  | EmptyString => EmptyString
  | String a s' =>
      match rstrip c s' with
      | EmptyString => if Ascii.eqb a c then EmptyString else String a EmptyString
      | r => String a r
      end
  end.

(** [s.strip(c)] *)
Definition strip (c : ascii) (s : string) : string := rstrip c (lstrip c s).

(** The characters of a string, as iterating over a [str] yields them. *)
Fixpoint chars (s : string) : list string :=
  match s with
  | EmptyString => []
  | String a s' => String a EmptyString :: chars s'
  end.

(** Stable sort in descending key order: the order of
    [sorted(l, key=..., reverse=True)], which keeps elements with equal
    keys in their original order.  The keys are computed beforehand. *)
Section Sorting.
Variables (K A : Type) (ltb : K -> K -> bool).

Fixpoint insert_desc (k : K) (x : A) (l : list (K * A)) : list (K * A) :=
  match l with
  | [] => [(k, x)]
  | (k', y) :: l' =>
      if ltb k k' then (k', y) :: insert_desc k x l'
      else (k, x) :: (k', y) :: l'
  end.

Fixpoint sort_desc (l : list (K * A)) : list (K * A) :=
  match l with
  | [] => []
  | (k, x) :: l' => insert_desc k x (sort_desc l')
  end.
End Sorting.

(** Comparison of the tuples [(a, b, c)] used as a sort key. *)
Definition tuple3_ltb (x y : Z * Z * Z) : bool :=
  let '(x1, x2, x3) := x in
  let '(y1, y2, y3) := y in
  if (x1 <? y1)%Z then true
  else if (y1 <? x1)%Z then false
  else if (x2 <? y2)%Z then true
  else if (y2 <? x2)%Z then false
  else (x3 <? y3)%Z.

(** [[f(x) for x in l]] where [f] may raise. *)
Fixpoint map_res {A B} (f : A -> res B) (l : list A) : res (list B) :=
  match l with
  | [] => Ok []
  | x :: l' =>
      res_bind (f x) (fun y => res_bind (map_res f l') (fun ys => Ok (y :: ys)))
  end.

(** [l.index(x)] for a list of any type with a decidable equality. *)
Fixpoint index_of {A : Type} (eqb : A -> A -> bool) (x : A) (l : list A) : res Z :=
  match l with
  | [] => Raise ValueError
  | y :: l' =>
      if eqb y x then Ok 0%Z
      else res_bind (index_of eqb x l') (fun i => Ok (i + 1)%Z)
  end.

(** A [str] as the list of its code points, where the code counts characters
    ([len], character classes of [re]). *)
Definition text : Type := list Z.

(** The whitespace of [str] patterns ([\s], [Py_UNICODE_ISSPACE]). *)
Definition isspace (c : Z) : bool :=
  ((9 <=? c) && (c <=? 13) || (28 <=? c) && (c <=? 32)
   || (c =? 133) || (c =? 160) || (c =? 5760)
   || (8192 <=? c) && (c <=? 8202)
   || (c =? 8232) || (c =? 8233) || (c =? 8239) || (c =? 8287)
   || (c =? 12288))%Z.

End Py.

(** ** The tables of [create_schema] *)

Module Actor.
Record t : Type := mk
  { actor_id : Z;
    last_name : string;
    first_name : string;
    patronymic : string;
    rank : string;
    awards_count : Z;
    experience : Z }.

Definition set_rank (r : string) (a : t) : t :=
  mk (actor_id a) (last_name a) (first_name a) (patronymic a)
     r (awards_count a) (experience a).
Definition set_awards_count (n : Z) (a : t) : t :=
  mk (actor_id a) (last_name a) (first_name a) (patronymic a)
     (rank a) n (experience a).
Definition set_experience (n : Z) (a : t) : t :=
  mk (actor_id a) (last_name a) (first_name a) (patronymic a)
     (rank a) (awards_count a) n.
End Actor.

(** What the driver hands back for the column [required_ranks actor_rank[]]:
    the array's text form [{a,b}] when no array adapter is registered for the
    enum type, a list otherwise. *)
Inductive pg_array : Type :=
| ArrayText (s : string)
| ArrayList (l : list string).

Module Plot.
Record t : Type := mk
  { plot_id : Z;
    title : string;
    minimum_budget : Z;
    production_cost : Z;
    roles_count : Z;
    demand : Z;
    required_ranks : pg_array }.
End Plot.

Module Performance.
Record t : Type := mk
  { performance_id : Z;
    title : string;
    plot_id : Z;
    year : Z;
    budget : Z;
    revenue : Z;
    is_completed : bool }.

Definition set_budget (b : Z) (p : t) : t :=
  mk (performance_id p) (title p) (plot_id p) (year p) b (revenue p)
     (is_completed p).
Definition set_completed (r : Z) (p : t) : t :=
  mk (performance_id p) (title p) (plot_id p) (year p) (budget p) r true.
End Performance.

Module ActorPerformance.
Record t : Type := mk
  { actor_id : Z;
    performance_id : Z;
    role : string;
    contract_cost : Z }.
End ActorPerformance.

(** The single row [id = 1] of [game_data]. *)
Module GameData.
Record t : Type := mk
  { current_year : Z;
    capital : Z }.
End GameData.

(** A row of [get_actors_in_performance]: [a.*, ap.role, ap.contract_cost]. *)
Module CastRow.
Record t : Type := mk
  { actor : Actor.t;
    role : string;
    contract_cost : Z }.
Definition actor_id (c : t) : Z := Actor.actor_id (actor c).
Definition rank (c : t) : string := Actor.rank (actor c).
Definition awards_count (c : t) : Z := Actor.awards_count (actor c).
Definition experience (c : t) : Z := Actor.experience (actor c).
End CastRow.

Module Db.
Record t : Type := mk
  { actors : list Actor.t;
    plots : list Plot.t;
    performances : list Performance.t;
    actor_performances : list ActorPerformance.t;
    game_data : GameData.t }.

Definition set_actors (x : list Actor.t) (d : t) : t :=
  mk x (plots d) (performances d) (actor_performances d) (game_data d).
Definition set_plots (x : list Plot.t) (d : t) : t :=
  mk (actors d) x (performances d) (actor_performances d) (game_data d).
Definition set_performances (x : list Performance.t) (d : t) : t :=
  mk (actors d) (plots d) x (actor_performances d) (game_data d).
Definition set_game_data (x : GameData.t) (d : t) : t :=
  mk (actors d) (plots d) (performances d) (actor_performances d) x.
Definition set_actor_performances (x : list ActorPerformance.t) (d : t) : t :=
  mk (actors d) (plots d) (performances d) x (game_data d).
End Db.

(** ** State and errors

    The program state is the database together with the random generator.
    A computation returns a value or raises, and leaves a state either way. *)

Module Rng.
Record t : Type := mk
  { tape : nat -> Q;
    pos : nat }.
End Rng.

Record World : Type := mkWorld
  { db : Db.t;
    rng : Rng.t }.

Definition M (A : Type) : Type := World -> Py.res A * World.

Definition ret {A} (a : A) : M A := fun w => (Py.Ok a, w).

Definition raise {A} (e : Py.exn) : M A := fun w => (Py.Raise e, w).

Definition bind {A B} (m : M A) (k : A -> M B) : M B :=
  fun w =>
    match m w with
    | (Py.Ok a, w') => k a w'
    | (Py.Raise e, w') => (Py.Raise e, w')
    end.

Definition lift {A} (r : Py.res A) : M A := fun w => (r, w).

Definition query {A} (f : Db.t -> A) : M A := fun w => (Py.Ok (f (db w)), w).

Definition execute (f : Db.t -> Db.t) : M unit :=
  fun w => (Py.Ok tt, mkWorld (f (db w)) (rng w)).

Declare Scope monad_scope.
Delimit Scope monad_scope with monad.
Notation "x <- m ;; k" := (bind m (fun x => k))
  (at level 61, m at next level, right associativity) : monad_scope.
Notation "m ;;; k" := (bind m (fun _ => k))
  (at level 61, right associativity) : monad_scope.

(** ** [random] *)

Module Random.
Definition random : M Q :=
  fun w =>
    let g := rng w in
    (Py.Ok (Rng.tape g (Rng.pos g)),
     mkWorld (db w) (Rng.mk (Rng.tape g) (S (Rng.pos g)))).

Definition uniform (a b : Q) : M Q :=
  (u <- random ;; ret (a + (b - a) * u))%monad.
End Random.

(** ** [data.py]: [DatabaseManager]

    Each SQL statement is a function on the tables, named after what it
    does; the methods run them in the state monad. *)

Module DatabaseManager.
Import Py.
Local Open Scope Z_scope.
Local Open Scope monad_scope.

(** The values of [class ActorRank(enum.Enum)], in declaration order. *)
Definition ActorRank_values : list string :=
  ["Начинающий"; "Постоянный"; "Ведущий"; "Мастер"; "Заслуженный"; "Народный"]%string.

(** [SELECT p.*, pl.title FROM performances p JOIN plots pl
     ON p.plot_id = pl.plot_id ORDER BY p.year DESC]
    (the call without a year filter; the joined plot title is not kept). *)
Definition select_performances (d : Db.t) : list Performance.t :=
  let joined :=
    flat_map
      (fun p =>
         map (fun _ => p)
             (filter (fun pl => Plot.plot_id pl =? Performance.plot_id p)
                     (Db.plots d)))
      (Db.performances d) in
  map snd (sort_desc Z.ltb (map (fun p => (Performance.year p, p)) joined)).

Definition get_performances : M (list Performance.t) := query select_performances.

(** [SELECT * FROM plots ORDER BY title]; the collation order of titles is
    not modelled, the rows come in table order. *)
Definition get_plots : M (list Plot.t) := query Db.plots.

(** [ap.actor_id = a.actor_id AND ap.performance_id = %s] *)
Definition plays_in (performance_id : Z) (a : Actor.t) (ap : ActorPerformance.t)
  : bool :=
  (Actor.actor_id a =? ActorPerformance.actor_id ap)
  && (ActorPerformance.performance_id ap =? performance_id).

(** [SELECT a.*, ap.role, ap.contract_cost FROM actors a
     JOIN actor_performances ap ON a.actor_id = ap.actor_id
     WHERE ap.performance_id = %s ORDER BY ap.contract_cost DESC];
    rows of equal cost keep the order of the join. *)
Definition select_actors_in_performance (performance_id : Z) (d : Db.t)
  : list CastRow.t :=
  let joined :=
    flat_map
      (fun a =>
         map (fun ap =>
                CastRow.mk a (ActorPerformance.role ap)
                           (ActorPerformance.contract_cost ap))
             (filter (plays_in performance_id a) (Db.actor_performances d)))
      (Db.actors d) in
  map snd (sort_desc Z.ltb (map (fun c => (CastRow.contract_cost c, c)) joined)).

Definition get_actors_in_performance (performance_id : Z) : M (list CastRow.t) :=
  query (select_actors_in_performance performance_id).

(** [SELECT * FROM game_data WHERE id = 1] *)
Definition get_game_data : M GameData.t := query Db.game_data.

Definition MSG_PLOT_IN_USE : string :=
  "Сюжет используется в спектаклях и не может быть удален".

Definition MSG_MIN_PLOTS : string := "Минимальное число сюжетов - 5".

(** [SELECT COUNT( * ) FROM performances WHERE plot_id = %s] *)
Definition count_performances_of_plot (plot_id : Z) (d : Db.t) : Z :=
  Z.of_nat (List.length
    (filter (fun p => Performance.plot_id p =? plot_id) (Db.performances d))).

(** [SELECT COUNT( * ) FROM plots] *)
Definition count_plots (d : Db.t) : Z := Z.of_nat (List.length (Db.plots d)).

(** [DELETE FROM plots WHERE plot_id = %s] *)
Definition delete_from_plots (plot_id : Z) (d : Db.t) : Db.t :=
  Db.set_plots
    (filter (fun pl => negb (Plot.plot_id pl =? plot_id)) (Db.plots d)) d.

Definition delete_plot (plot_id : Z) : M (bool * string) :=
  used <- query (count_performances_of_plot plot_id) ;;
  if used >? 0 then ret (false, MSG_PLOT_IN_USE)
  else
    total <- query count_plots ;;
    if total <=? 5 then ret (false, MSG_MIN_PLOTS)
    else
      execute (delete_from_plots plot_id) ;;;
      ret (true, EmptyString).

(** [UPDATE game_data SET current_year = %s, capital = %s WHERE id = 1] *)
Definition update_game_data (year capital : Z) : M bool :=
  execute (Db.set_game_data (GameData.mk year capital)) ;;;
  ret true.

(** [UPDATE performances SET revenue = %s, is_completed = TRUE
     WHERE performance_id = %s] *)
Definition set_performance_completed (performance_id revenue : Z) (d : Db.t)
  : Db.t :=
  Db.set_performances
    (map (fun p =>
            if Performance.performance_id p =? performance_id
            then Performance.set_completed revenue p else p)
         (Db.performances d)) d.

(** [UPDATE actors a SET experience = a.experience + 1
     FROM actor_performances ap
     WHERE a.actor_id = ap.actor_id AND ap.performance_id = %s]:
    a row that joins is updated once. *)
Definition bump_experience (performance_id : Z) (d : Db.t) : Db.t :=
  Db.set_actors
    (map (fun a =>
            if existsb (plays_in performance_id a) (Db.actor_performances d)
            then Actor.set_experience (Actor.experience a + 1) a else a)
         (Db.actors d)) d.

Definition complete_performance (performance_id revenue : Z) : M bool :=
  execute (set_performance_completed performance_id revenue) ;;;
  execute (bump_experience performance_id) ;;;
  ret true.

(** [UPDATE performances SET budget = %s WHERE performance_id = %s] *)
Definition set_performance_budget (performance_id budget : Z) (d : Db.t) : Db.t :=
  Db.set_performances
    (map (fun p =>
            if Performance.performance_id p =? performance_id
            then Performance.set_budget budget p else p)
         (Db.performances d)) d.

Definition update_performance_budget (performance_id budget : Z) : M bool :=
  execute (set_performance_budget performance_id budget) ;;;
  ret true.

(** [SELECT rank FROM actors WHERE actor_id = %s], then [fetchone()] *)
Definition select_actor (actor_id : Z) (d : Db.t) : option Actor.t :=
  find (fun a => Actor.actor_id a =? actor_id) (Db.actors d).

(** [UPDATE actors SET rank = %s WHERE actor_id = %s] *)
Definition set_actor_rank (actor_id : Z) (new_rank : string) (d : Db.t) : Db.t :=
  Db.set_actors
    (map (fun a =>
            if Actor.actor_id a =? actor_id then Actor.set_rank new_rank a else a)
         (Db.actors d)) d.

Definition upgrade_actor_rank (actor_id : Z) : M bool :=
  row <- query (select_actor actor_id) ;;
  match row with
  | None => raise TypeError
  | Some a =>
      let current_rank := Actor.rank a in
      let rank_order := ActorRank_values in
      rank_idx <- lift (index current_rank rank_order) ;;
      if rank_idx <? Z.of_nat (List.length rank_order) - 1 then
        match nth_error rank_order (Z.to_nat (rank_idx + 1)) with
        | None => raise IndexError
        | Some new_rank =>
            execute (set_actor_rank actor_id new_rank) ;;;
            ret true
        end
      else ret false
  end.

(** [UPDATE actors SET awards_count = awards_count + 1 WHERE actor_id = %s] *)
Definition add_award (actor_id : Z) (d : Db.t) : Db.t :=
  Db.set_actors
    (map (fun a =>
            if Actor.actor_id a =? actor_id
            then Actor.set_awards_count (Actor.awards_count a + 1) a else a)
         (Db.actors d)) d.

Definition award_actor (actor_id : Z) : M bool :=
  execute (add_award actor_id) ;;;
  ret true.

(** [class ActorRank(enum.Enum)]: the members, their values, [from_value]
    and [compare]. *)
Inductive ActorRank : Type :=
| BEGINNER | REGULAR | LEAD | MASTER | HONORED | PEOPLE.

Definition ActorRank_members : list ActorRank :=
  [BEGINNER; REGULAR; LEAD; MASTER; HONORED; PEOPLE].

Definition ActorRank_value (r : ActorRank) : string :=
  match r with
  | BEGINNER => "Начинающий"
  | REGULAR => "Постоянный"
  | LEAD => "Ведущий"
  | MASTER => "Мастер"
  | HONORED => "Заслуженный"
  | PEOPLE => "Народный"
  end.

Definition ActorRank_eqb (x y : ActorRank) : bool :=
  match x, y with
  | BEGINNER, BEGINNER | REGULAR, REGULAR | LEAD, LEAD
  | MASTER, MASTER | HONORED, HONORED | PEOPLE, PEOPLE => true
  | _, _ => false
  end.

(** [for member in cls: if member.value == value: return member; raise
    ValueError] *)
Fixpoint from_value_in (members : list ActorRank) (value : string)
  : res ActorRank :=
  match members with
  | [] => Raise ValueError
  | member :: rest =>
      if String.eqb (ActorRank_value member) value then Ok member
      else from_value_in rest value
  end.

Definition from_value (value : string) : res ActorRank :=
  from_value_in ActorRank_members value.

Definition compare (rank1 rank2 : string) : res Z :=
  res_bind (from_value rank1) (fun r1 =>
  res_bind (from_value rank2) (fun r2 =>
  if String.eqb (ActorRank_value r1) (ActorRank_value r2) then Ok 0
  else
    let rank_order := [BEGINNER; REGULAR; LEAD; MASTER; HONORED; PEOPLE] in
    res_bind (index_of ActorRank_eqb r1 rank_order) (fun idx1 =>
    res_bind (index_of ActorRank_eqb r2 rank_order) (fun idx2 =>
    Ok (if idx1 <? idx2 then -1 else 1))))).

Definition MSG_ACTOR_BUSY : string := "Актер занят в текущих постановках".

Definition MSG_MIN_ACTORS : string := "Минимальное число актеров - 8".

Definition MSG_ACTOR_NOT_FOUND : string := "Актер не найден".

(** [SELECT COUNT( * ) FROM actor_performances ap
     JOIN performances p ON ap.performance_id = p.performance_id
     WHERE ap.actor_id = %s AND p.is_completed = FALSE] *)
Definition count_pending_roles (actor_id : Z) (d : Db.t) : Z :=
  Z.of_nat (List.length
    (flat_map
       (fun ap =>
          filter (fun p =>
                    (ActorPerformance.performance_id ap
                     =? Performance.performance_id p)
                    && (ActorPerformance.actor_id ap =? actor_id)
                    && negb (Performance.is_completed p))
                 (Db.performances d))
       (Db.actor_performances d))).

(** [SELECT COUNT( * ) FROM actors] *)
Definition count_actors (d : Db.t) : Z := Z.of_nat (List.length (Db.actors d)).

(** [DELETE FROM actor_performances WHERE actor_id = %s AND performance_id IN
     (SELECT performance_id FROM performances WHERE is_completed = TRUE)] *)
Definition delete_past_roles (actor_id : Z) (d : Db.t) : Db.t :=
  Db.set_actor_performances
    (filter
       (fun ap =>
          negb ((ActorPerformance.actor_id ap =? actor_id)
                && existsb
                     (fun p =>
                        (Performance.performance_id p
                         =? ActorPerformance.performance_id ap)
                        && Performance.is_completed p)
                     (Db.performances d)))
       (Db.actor_performances d)) d.

(** [DELETE FROM actors WHERE actor_id = %s] *)
Definition delete_from_actors (actor_id : Z) (d : Db.t) : Db.t :=
  Db.set_actors
    (filter (fun a => negb (Actor.actor_id a =? actor_id)) (Db.actors d)) d.

Definition delete_actor (actor_id : Z) : M (bool * string) :=
  busy <- query (count_pending_roles actor_id) ;;
  if busy >? 0 then ret (false, MSG_ACTOR_BUSY)
  else
    total <- query count_actors ;;
    if total <=? 8 then ret (false, MSG_MIN_ACTORS)
    else
      execute (delete_past_roles actor_id) ;;;
      execute (delete_from_actors actor_id) ;;;
      ret (true, EmptyString).

(** [SELECT * FROM actors ORDER BY actor_id] *)
Definition select_actors (d : Db.t) : list Actor.t :=
  map snd (sort_desc (fun x y => y <? x)
                     (map (fun a => (Actor.actor_id a, a)) (Db.actors d))).

Definition get_actors : M (list Actor.t) := query select_actors.

(** [INSERT INTO actors (...) VALUES (...) RETURNING actor_id]: the new row
    takes the value [nextval] that the sequence of the column hands out. *)
Definition insert_actor (row : Actor.t) (d : Db.t) : Db.t :=
  Db.set_actors (Db.actors d ++ [row]) d.

Definition add_actor (nextval : Z) (last_name first_name patronymic rank : string)
           (awards_count experience : Z) : M Z :=
  execute (insert_actor (Actor.mk nextval last_name first_name patronymic rank
                                  awards_count experience)) ;;;
  ret nextval.

(** [UPDATE actors SET last_name = %s, ..., experience = %s
     WHERE actor_id = %s RETURNING actor_id] *)
Definition update_actor_rows (actor_id : Z)
           (last_name first_name patronymic rank : string)
           (awards_count experience : Z) (d : Db.t) : Db.t :=
  Db.set_actors
    (map (fun a =>
            if Actor.actor_id a =? actor_id
            then Actor.mk (Actor.actor_id a) last_name first_name patronymic rank
                          awards_count experience
            else a)
         (Db.actors d)) d.

Definition update_actor (actor_id : Z)
           (last_name first_name patronymic rank : string)
           (awards_count experience : Z) : M (bool * string) :=
  updated_id <- query (fun d => option_map Actor.actor_id (select_actor actor_id d)) ;;
  execute (update_actor_rows actor_id last_name first_name patronymic rank
                             awards_count experience) ;;;
  match updated_id with
  | None => ret (false, MSG_ACTOR_NOT_FOUND)
  | Some _ => ret (true, EmptyString)
  end.

(** [INSERT INTO performances (title, plot_id, year, budget, is_completed)
     VALUES (%s, %s, %s, %s, FALSE) RETURNING performance_id]; the revenue
    takes its default 0. *)
Definition insert_performance (row : Performance.t) (d : Db.t) : Db.t :=
  Db.set_performances (Db.performances d ++ [row]) d.

Definition create_performance (nextval : Z) (title : string)
           (plot_id year budget : Z) : M Z :=
  execute (insert_performance
             (Performance.mk nextval title plot_id year budget 0 false)) ;;;
  ret nextval.

(** [INSERT INTO actor_performances (actor_id, performance_id, role,
     contract_cost) VALUES (%s, %s, %s, %s)] *)
Definition insert_actor_performance (row : ActorPerformance.t) (d : Db.t) : Db.t :=
  Db.set_actor_performances (Db.actor_performances d ++ [row]) d.

Definition assign_actor_to_role (actor_id performance_id : Z) (role : string)
           (contract_cost : Z) : M bool :=
  execute (insert_actor_performance
             (ActorPerformance.mk actor_id performance_id role contract_cost)) ;;;
  ret true.

End DatabaseManager.

(** ** [controller.py]: [TheaterController] *)

Module TheaterController.
Import Py.
Local Open Scope Z_scope.
Local Open Scope monad_scope.

(** The literal [rank_order] of [calculate_contract_cost] and
    [calculate_performance_result]. *)
Definition rank_order : list string :=
  ["Начинающий"; "Постоянный"; "Ведущий"; "Мастер"; "Заслуженный"; "Народный"]%string.

Record CostBreakdown : Type := mkCost
  { contract : Z;
    premium : Q;
    total : Q }.

Definition calculate_contract_cost (actor : Actor.t) : res CostBreakdown :=
  let base_cost := 30000 in
  res_bind (index (Actor.rank actor) rank_order) (fun rank_idx =>
  let rank_bonus := rank_idx * 10000 in
  let experience_bonus := Actor.experience actor * 2000 in
  let awards_bonus := Actor.awards_count actor * 5000 in
  let contract_cost := base_cost + rank_bonus + experience_bonus + awards_bonus in
  let premium := (inject_Z contract_cost / 5)%Q in
  Ok (mkCost contract_cost premium (inject_Z contract_cost + premium)%Q)).

Record Settlement : Type := mkSettlement
  { revenue : Z;
    budget : Z;
    original_budget : Z;
    saved_budget : Z;
    profit : Z;
    awarded_actors : list CastRow.t;
    unexpected_expenses : Z }.

Inductive reply : Type :=
| Message (s : string)
| Result (r : Settlement).

Definition MSG_NOT_FOUND_OR_COMPLETED : string :=
  "Спектакль не найден или уже завершен".

(** [plot['production_cost']] and the like: subscripting [None] raises. *)
Definition subscriptable {A} (o : option A) : M A :=
  match o with
  | Some x => ret x
  | None => raise TypeError
  end.

(** The value the loop sees as [required_ranks]: the text form [{a,b}] is cut
    at the commas and unquoted; any other string stays a string, whose items
    are its characters. *)
Definition parse_required_ranks (v : pg_array) : list string :=
  match v with
  | ArrayText s =>
      if startswith "{" s && endswith "}" s
      then map (strip "034") (split "," (slice_1_m1 s))
      else chars s
  | ArrayList l => l
  end.

(** [total_spent = plot['production_cost']; for actor in actors:
     total_spent += actor['contract_cost']] *)
Definition total_spent_of (plot : Plot.t) (actors : list CastRow.t) : Z :=
  fold_left (fun acc actor => acc + CastRow.contract_cost actor) actors
            (Plot.production_cost plot).

Definition base_revenue_of (actual_budget : Z) (plot : Plot.t) : Q :=
  (inject_Z actual_budget * (0.7 + 0.08 * inject_Z (Plot.demand plot)))%Q.

(** The loop over [enumerate(actors)] that checks the ranks, from slot [i];
    [Ok false] is the [break]. *)
Fixpoint requirements_loop (required_ranks : list string) (i : nat)
         (actors : list CastRow.t) : res bool :=
  match actors with
  | [] => Ok true
  | actor :: rest =>
      match nth_error required_ranks i with
      | Some required_rank =>
          if contains required_rank rank_order then
            res_bind (index (CastRow.rank actor) rank_order) (fun actor_rank_index =>
            res_bind (index required_rank rank_order) (fun required_rank_index =>
            if actor_rank_index <? required_rank_index then Ok false
            else requirements_loop required_ranks (S i) rest))
          else requirements_loop required_ranks (S i) rest
      | None => requirements_loop required_ranks (S i) rest
      end
  end.

Definition actors_match_requirements_of (required_ranks : list string)
           (actors : list CastRow.t) : res bool :=
  match required_ranks with
  | [] => Ok true
  | _ :: _ => requirements_loop required_ranks 0 actors
  end.

Definition actor_contribution (actor : CastRow.t) (rank_idx : Z) : Q :=
  let rank_multiplier := (1 + inject_Z rank_idx * 0.15)%Q in
  let award_bonus := (inject_Z (CastRow.awards_count actor) * 0.05)%Q in
  let exp_bonus := (inject_Z (CastRow.experience actor) * 0.01)%Q in
  (inject_Z (CastRow.contract_cost actor) * rank_multiplier
   * (1 + award_bonus + exp_bonus))%Q.

(** [for actor in actors: ...; actors_bonus += actor_contribution] *)
Fixpoint actors_bonus_loop (actors : list CastRow.t) (actors_bonus : Q) : res Q :=
  match actors with
  | [] => Ok actors_bonus
  | actor :: rest =>
      res_bind (index (CastRow.rank actor) rank_order) (fun rank_idx =>
      actors_bonus_loop rest (actors_bonus + actor_contribution actor rank_idx)%Q)
  end.

(** The draw of [random_factor] for a given [fate_roll]. *)
Definition random_factor_of (actors_match_requirements : bool) (fate_roll : Q)
  : M Q :=
  let fail_chance := if actors_match_requirements then 0.4%Q else 0.6%Q in
  if float_lt fate_roll fail_chance then
    if actors_match_requirements then Random.uniform 0.4 0.7
    else Random.uniform 0.3 0.5
  else if float_lt fate_roll 0.9 then Random.uniform 0.7 1.0
  else Random.uniform 1.0 1.4.

(** The key [lambda a: (rank_order.index(a['rank']), a['experience'],
    a['awards_count'])]. *)
Definition sort_key (a : CastRow.t) : res (Z * Z * Z) :=
  res_bind (index (CastRow.rank a) rank_order) (fun i =>
  Ok (i, CastRow.experience a, CastRow.awards_count a)).

(** [sorted(actors, key=..., reverse=True)] *)
Definition sorted_actors_of (actors : list CastRow.t) : res (list CastRow.t) :=
  res_bind (map_res (fun a => res_bind (sort_key a) (fun k => Ok (k, a))) actors)
           (fun keyed => Ok (map snd (sort_desc tuple3_ltb keyed))).

(** [for i, actor in enumerate(sorted_actors[:3])], from position [i]. *)
Fixpoint award_loop (i : nat) (top : list CastRow.t) (profit total_expenses : Z)
  : M (list CastRow.t) :=
  match top with
  | [] => ret []
  | actor :: rest =>
      DatabaseManager.award_actor (CastRow.actor_id actor) ;;;
      (if (i =? 0)%nat
          && float_lt (inject_Z total_expenses * 0.3)%Q (inject_Z profit)
       then DatabaseManager.upgrade_actor_rank (CastRow.actor_id actor) ;;; ret tt
       else ret tt) ;;;
      more <- award_loop (S i) rest profit total_expenses ;;
      ret (actor :: more)
  end.

Definition calculate_performance_result (performance_id : Z) : M (bool * reply) :=
  performances <- DatabaseManager.get_performances ;;
  match find (fun p => Performance.performance_id p =? performance_id)
             performances with
  | None => ret (false, Message MSG_NOT_FOUND_OR_COMPLETED)
  | Some performance =>
      if Performance.is_completed performance
      then ret (false, Message MSG_NOT_FOUND_OR_COMPLETED)
      else
        plots <- DatabaseManager.get_plots ;;
        plot <- subscriptable
                  (find (fun p => Plot.plot_id p =? Performance.plot_id performance)
                        plots) ;;
        actors <- DatabaseManager.get_actors_in_performance performance_id ;;
        let total_spent := total_spent_of plot actors in
        let actual_budget := Z.min (Performance.budget performance) total_spent in
        let saved_budget := Performance.budget performance - actual_budget in
        let base_revenue := base_revenue_of actual_budget plot in
        u <- Random.uniform 0.05 0.15 ;;
        let unexpected_expenses := int (inject_Z actual_budget * u) in
        let required_ranks := parse_required_ranks (Plot.required_ranks plot) in
        actors_match_requirements <-
          lift (actors_match_requirements_of required_ranks actors) ;;
        actors_bonus <- lift (actors_bonus_loop actors 0%Q) ;;
        fate_roll <- Random.random ;;
        random_factor <- random_factor_of actors_match_requirements fate_roll ;;
        let total_revenue := int ((base_revenue + actors_bonus) * random_factor) in
        let total_expenses := actual_budget + unexpected_expenses in
        let profit := total_revenue - total_expenses in
        DatabaseManager.update_performance_budget performance_id total_expenses ;;;
        DatabaseManager.complete_performance performance_id total_revenue ;;;
        game_data <- DatabaseManager.get_game_data ;;
        let new_capital :=
          GameData.capital game_data + total_revenue + saved_budget
          - unexpected_expenses in
        let current_year := GameData.current_year game_data + 1 in
        DatabaseManager.update_game_data current_year new_capital ;;;
        successful_actors <-
          (if profit >? 0 then
             sorted_actors <- lift (sorted_actors_of actors) ;;
             award_loop 0 (firstn 3 sorted_actors) profit total_expenses
           else ret []) ;;
        ret (true,
             Result (mkSettlement total_revenue total_expenses
                                  (Performance.budget performance) saved_budget
                                  profit successful_actors unexpected_expenses))
  end.

Record SkipResult : Type := mkSkip
  { year : Z;
    capital : Z;
    rights_sale : Z }.

Definition skip_year : M SkipResult :=
  game_data <- DatabaseManager.get_game_data ;;
  let current_year := GameData.current_year game_data in
  let current_capital := GameData.capital game_data in
  u <- Random.uniform 0.1 0.2 ;;
  let rights_sale := int (inject_Z current_capital * u) in
  let new_capital := current_capital + rights_sale in
  let new_year := current_year + 1 in
  DatabaseManager.update_game_data new_year new_capital ;;;
  ret (mkSkip new_year new_capital rights_sale).

(** [get_performance_details]: [None] or the performance with its cast. *)
Definition get_performance_details (performance_id : Z)
  : M (option (Performance.t * list CastRow.t)) :=
  performances <- DatabaseManager.get_performances ;;
  match find (fun p => Performance.performance_id p =? performance_id)
             performances with
  | None => ret None
  | Some performance =>
      actors <- DatabaseManager.get_actors_in_performance performance_id ;;
      ret (Some (performance, actors))
  end.

(** The second component of the answer of [create_new_performance]: the id
    of the new performance or a message. *)
Inductive creation : Type :=
| Created (performance_id : Z)
| Refused (msg : string).

Definition MSG_NO_FUNDS : string := "Недостаточно средств в капитале".

Definition MSG_PLOT_NOT_FOUND : string := "Сюжет не найден".

Definition MSG_BUDGET_TOO_SMALL : string :=
  "Бюджет меньше минимально необходимого для данного сюжета".

Definition MSG_CREATE_FAILED : string := "Ошибка при создании спектакля".

(** [create_new_performance]; [nextval] is the id that the sequence of
    [performances] hands out to the inserted row. *)
Definition create_new_performance (nextval : Z) (title : string)
           (plot_id year budget : Z) : M (bool * creation) :=
  game_data <- DatabaseManager.get_game_data ;;
  if GameData.capital game_data <? budget then ret (false, Refused MSG_NO_FUNDS)
  else
    plots <- DatabaseManager.get_plots ;;
    match find (fun p => Plot.plot_id p =? plot_id) plots with
    | None => ret (false, Refused MSG_PLOT_NOT_FOUND)
    | Some plot =>
        if budget <? Plot.minimum_budget plot
        then ret (false, Refused MSG_BUDGET_TOO_SMALL)
        else
          performance_id <-
            DatabaseManager.create_performance nextval title plot_id year budget ;;
          if negb (performance_id =? 0) then
            let new_capital := GameData.capital game_data - budget in
            DatabaseManager.update_game_data year new_capital ;;;
            ret (true, Created performance_id)
          else ret (false, Refused MSG_CREATE_FAILED)
    end.

Definition assign_actor_to_performance (actor_id performance_id : Z)
           (role : string) (contract_cost : Z) : M bool :=
  DatabaseManager.assign_actor_to_role actor_id performance_id role contract_cost.

Definition delete_actor_by_id (actor_id : Z) : M (bool * string) :=
  DatabaseManager.delete_actor actor_id.

(** The character class [[а-яА-Яa-zA-Z0-9\s]] of [is_valid_text_input]. *)
Definition valid_char (c : Z) : bool :=
  (1072 <=? c) && (c <=? 1103) || (1040 <=? c) && (c <=? 1071)
  || (97 <=? c) && (c <=? 122) || (65 <=? c) && (c <=? 90)
  || (48 <=? c) && (c <=? 57) || isspace c.

(** [len(text) <= 100 and bool(re.match(r'^[...]+$', text))]: the pattern
    matches when the text is not empty and every character is of the class
    (a final newline, before which [$] also matches, is of the class). *)
Definition is_valid_text_input (text : Py.text) : bool :=
  (Z.of_nat (List.length text) <=? 100)
  && match text with
     | [] => false
     | _ :: _ => forallb valid_char text
     end.

(** [RankTableItem]: the item keeps the position of its text in
    [rank_order], or -1; [__lt__] against another such item compares the
    positions. *)
Definition RankTableItem_rank_index (text : string) : Z :=
  if contains text rank_order then
    match index text rank_order with
    | Ok i => i
    | Raise _ => -1
    end
  else -1.

Definition RankTableItem_lt (self other : string) : bool :=
  RankTableItem_rank_index self <? RankTableItem_rank_index other.

End TheaterController.

(** ** [new_performance_d.py]: the calls of [NewPerformanceDialog.create_performance]

    Once the form is checked, the dialog creates the performance, assigns
    the actors of [roles_data] (role name, actor id, contract cost) and
    settles the performance; a refused creation ends it. *)

Module NewPerformanceDialog.
Import Py.
Local Open Scope Z_scope.
Local Open Scope monad_scope.

(** [for role_name, actor_id, contract_cost in roles_data:
     self.controller.assign_actor_to_performance(...)] *)
Fixpoint assign_roles (performance_id : Z) (roles_data : list (string * Z * Z))
  : M unit :=
  match roles_data with
  | [] => ret tt
  | (role_name, actor_id, contract_cost) :: rest =>
      TheaterController.assign_actor_to_performance
        actor_id performance_id role_name contract_cost ;;;
      assign_roles performance_id rest
  end.

Definition create_performance (nextval : Z) (title : string)
           (plot_id year budget : Z) (roles_data : list (string * Z * Z))
  : M (option (bool * TheaterController.reply)) :=
  created <- TheaterController.create_new_performance
               nextval title plot_id year budget ;;
  match created with
  | (true, TheaterController.Created performance_id) =>
      assign_roles performance_id roles_data ;;;
      settled <- TheaterController.calculate_performance_result performance_id ;;
      ret (Some settled)
  | _ => ret None
  end.

End NewPerformanceDialog.

(** ** Vocabulary of the statements *)

Import Py.
Import DatabaseManager.
Import TheaterController.

(** The [n]-th next output of [random.random()]. *)
Definition draw (w : World) (n : nat) : Q :=
  Rng.tape (rng w) (n + Rng.pos (rng w)).

(** The generator after [n] draws. *)
Definition advance (n : nat) (g : Rng.t) : Rng.t :=
  Rng.mk (Rng.tape g) (n + Rng.pos g).

(** The draws that [random.random()] can return. *)
Definition unit_draw (u : Q) : Prop := (0 <= u /\ u < 1)%Q.

Definition uniform_of (a b u : Q) : Q := (a + (b - a) * u)%Q.

(** The position of a rank in the order Beginner < ... < People's; ranks
    outside the order have no position and are given 0 here. *)
Definition rank_index (r : string) : Z :=
  match index r rank_order with
  | Ok i => i
  | Raise _ => 0%Z
  end.

Definition known_rank (r : string) : Prop := In r rank_order.

(** The contract figure of an actor of a known rank. *)
Definition contract_figure (a : Actor.t) : Z :=
  (30000 + rank_index (Actor.rank a) * 10000
   + Actor.experience a * 2000 + Actor.awards_count a * 5000)%Z.

(** The performance that a settlement of [performance_id] works on. *)
Definition pending (performance_id : Z) (d : Db.t) (performance : Performance.t)
  : Prop :=
  find (fun p => Performance.performance_id p =? performance_id)%Z
       (select_performances d) = Some performance
  /\ Performance.is_completed performance = false.

Definition cast_ranks_known (performance_id : Z) (d : Db.t) : Prop :=
  Forall (fun c => known_rank (CastRow.rank c))
         (select_actors_in_performance performance_id d).


(** The CHECK constraints of [create_schema]. *)
Definition checks (d : Db.t) : Prop :=
  Forall (fun a => 0 <= Actor.awards_count a /\ 0 <= Actor.experience a)%Z
         (Db.actors d)
  /\ Forall (fun p => 0 < Plot.minimum_budget p /\ 0 < Plot.production_cost p
                      /\ 1 <= Plot.roles_count p /\ 1 <= Plot.demand p <= 10)%Z
            (Db.plots d)
  /\ Forall (fun p => 2022 <= Performance.year p /\ 0 < Performance.budget p
                      /\ 0 <= Performance.revenue p)%Z
            (Db.performances d)
  /\ Forall (fun ap => 0 < ActorPerformance.contract_cost ap)%Z
            (Db.actor_performances d)
  /\ (2022 <= GameData.current_year (Db.game_data d))%Z
  /\ (0 <= GameData.capital (Db.game_data d))%Z.

Definition sumZ (l : list Z) : Z := fold_right Z.add 0%Z l.

Definition sumQ (l : list Q) : Q := fold_right Qplus 0%Q l.

(** One summand of the actor bonus, as the specification writes it. *)
Definition bonus_term (c : CastRow.t) : Q :=
  (inject_Z (CastRow.contract_cost c)
   * (1 + 0.15 * inject_Z (rank_index (CastRow.rank c)))
   * (1 + 0.05 * inject_Z (CastRow.awards_count c)
        + 0.01 * inject_Z (CastRow.experience c)))%Q.

Inductive tier : Type := FAILURE | NORMAL | SUCCESS.

Definition tier_of (compliant : bool) (r : Q) : tier :=
  if Qlt_le_dec r (if compliant then 0.4 else 0.6) then FAILURE
  else if Qlt_le_dec r 0.9 then NORMAL
  else SUCCESS.

Definition multiplier_range (compliant : bool) (t : tier) : Q * Q :=
  match t with
  | FAILURE => if compliant then (0.4, 0.7)%Q else (0.3, 0.5)%Q
  | NORMAL => (0.7, 1.0)%Q
  | SUCCESS => (1.0, 1.4)%Q
  end.

(** Slot [i] of the cast breaks the rank requirement of the plot. *)
Definition violates (required_ranks : list string) (actors : list CastRow.t)
           (i : nat) : Prop :=
  exists actor required_rank,
    nth_error actors i = Some actor
    /\ nth_error required_ranks i = Some required_rank
    /\ known_rank required_rank
    /\ (rank_index (CastRow.rank actor) < rank_index required_rank)%Z.

(** The sort key of the awards, and its descending order. *)
Definition award_key (c : CastRow.t) : Z * Z * Z :=
  (rank_index (CastRow.rank c), CastRow.experience c, CastRow.awards_count c).


(** The rank one step above [r], the highest rank staying as it is. *)
Definition next_rank (r : string) : string :=
  nth (Z.to_nat (Z.min (rank_index r + 1) 5)) rank_order r.

(** [a] plays in performance [performance_id]. *)
Definition in_cast (performance_id : Z) (d : Db.t) (a : Actor.t) : bool :=
  existsb (plays_in performance_id a) (Db.actor_performances d).

(** An actor row after a settlement in which the actor was or was not in the
    cast, awarded and promoted. *)
Definition settled_actor (played awarded promoted : bool) (a : Actor.t) : Actor.t :=
  Actor.mk (Actor.actor_id a) (Actor.last_name a) (Actor.first_name a)
           (Actor.patronymic a)
           (if promoted then next_rank (Actor.rank a) else Actor.rank a)
           (Actor.awards_count a + (if awarded then 1 else 0))%Z
           (Actor.experience a + (if played then 1 else 0))%Z.

(** The state of the tables when the awards start: budget, completion,
    experience and game data are written. *)
Definition settled_db (performance_id total_expenses total_revenue saved_budget
                       unexpected_expenses : Z) (d : Db.t) : Db.t :=
  let d1 := set_performance_budget performance_id total_expenses d in
  let d2 := set_performance_completed performance_id total_revenue d1 in
  let d3 := bump_experience performance_id d2 in
  Db.set_game_data
    (GameData.mk (GameData.current_year (Db.game_data d3) + 1)
                 (GameData.capital (Db.game_data d3) + total_revenue
                  + saved_budget - unexpected_expenses)%Z) d3.

(** The promotion of [upgrade_actor_rank] on the tables. *)
Definition promoted_db (actor_id : Z) (d : Db.t) : Db.t :=
  match select_actor actor_id d with
  | Some a =>
      if (rank_index (Actor.rank a) <? 5)%Z
      then set_actor_rank actor_id (next_rank (Actor.rank a)) d
      else d
  | None => d
  end.

(** The tables after the awards of [top], the first of them promoted when
    [promoting]. *)
Definition awarded_db (top : list CastRow.t) (promoting : bool) (d : Db.t) : Db.t :=
  match top with
  | [] => d
  | c :: rest =>
      let d1 := add_award (CastRow.actor_id c) d in
      let d2 := if promoting then promoted_db (CastRow.actor_id c) d1 else d1 in
      fold_left (fun d c => add_award (CastRow.actor_id c) d) rest d2
  end.

(** The figures of one settlement, from the performance, its plot and cast,
    the outcome of the rank check, the bonus and the three draws. *)
Record Figures : Type := mkFigures
  { f_actual_budget : Z;
    f_saved_budget : Z;
    f_base_revenue : Q;
    f_unexpected_expenses : Z;
    f_random_factor : Q;
    f_total_revenue : Z;
    f_total_expenses : Z;
    f_profit : Z }.

(** The value of [random_factor] for a fate roll and the draw [u] of the
    [uniform] that follows it. *)
Definition random_factor_value (actors_match_requirements : bool)
           (fate_roll u : Q) : Q :=
  if float_lt fate_roll (if actors_match_requirements then 0.4 else 0.6) then
    if actors_match_requirements then uniform_of 0.4 0.7 u
    else uniform_of 0.3 0.5 u
  else if float_lt fate_roll 0.9 then uniform_of 0.7 1.0 u
  else uniform_of 1.0 1.4 u.

Definition figures (performance : Performance.t) (plot : Plot.t)
           (actors : list CastRow.t) (actors_match_requirements : bool)
           (actors_bonus u1 fate_roll u3 : Q) : Figures :=
  let actual_budget :=
    Z.min (Performance.budget performance) (total_spent_of plot actors) in
  let unexpected_expenses :=
    int (inject_Z actual_budget * uniform_of 0.05 0.15 u1) in
  let random_factor :=
    random_factor_value actors_match_requirements fate_roll u3 in
  let total_revenue :=
    int ((base_revenue_of actual_budget plot + actors_bonus) * random_factor) in
  let total_expenses := (actual_budget + unexpected_expenses)%Z in
  mkFigures actual_budget (Performance.budget performance - actual_budget)%Z
            (base_revenue_of actual_budget plot) unexpected_expenses
            random_factor total_revenue total_expenses
            (total_revenue - total_expenses)%Z.

(** The condition under which the first awarded actor is promoted. *)
Definition promoting (f : Figures) : bool :=
  float_lt (inject_Z (f_total_expenses f) * 0.3)%Q (inject_Z (f_profit f)).

(** The actors a settlement awards. *)
Definition awarded_of (actors : list CastRow.t) (f : Figures) : list CastRow.t :=
  if (f_profit f >? 0)%Z then
    match sorted_actors_of actors with
    | Ok sorted_actors => firstn 3 sorted_actors
    | Raise _ => []
    end
  else [].

Definition settlement_of (performance : Performance.t) (actors : list CastRow.t)
           (f : Figures) : Settlement :=
  mkSettlement (f_total_revenue f) (f_total_expenses f)
               (Performance.budget performance) (f_saved_budget f) (f_profit f)
               (awarded_of actors f) (f_unexpected_expenses f).

(** The tables after the settlement. *)
Definition final_db (performance_id : Z) (actors : list CastRow.t) (f : Figures)
           (d : Db.t) : Db.t :=
  awarded_db (awarded_of actors f) (promoting f)
             (settled_db performance_id (f_total_expenses f) (f_total_revenue f)
                         (f_saved_budget f) (f_unexpected_expenses f) d).

(** A rewrite of actor rows that keeps ids and experience and takes no
    award away. *)
Definition keeps_experience (g : Actor.t -> Actor.t) : Prop :=
  forall a, Actor.actor_id (g a) = Actor.actor_id a
            /\ Actor.experience (g a) = Actor.experience a
            /\ (Actor.awards_count a <= Actor.awards_count (g a))%Z.

(** ** Sample data

    The rows of [init_sample_data], with a fourth, pending production of
    plot 1 whose six cast members cost 80000 each. *)

Module Sample.
Local Open Scope Z_scope.
Local Open Scope string_scope.

Definition actors : list Actor.t :=
  [ Actor.mk 1 "Иванов" "Иван" "Иванович" "Ведущий" 3 5;
    Actor.mk 2 "Петров" "Петр" "Петрович" "Заслуженный" 5 10;
    Actor.mk 3 "Сидорова" "Анна" "Сергеевна" "Народный" 8 15;
    Actor.mk 4 "Смирнов" "Алексей" "Игоревич" "Мастер" 4 8;
    Actor.mk 5 "Козлова" "Екатерина" "Дмитриевна" "Постоянный" 2 4;
    Actor.mk 6 "Морозов" "Дмитрий" "Александрович" "Начинающий" 0 2;
    Actor.mk 7 "Новикова" "Ольга" "Владимировна" "Постоянный" 1 3;
    Actor.mk 8 "Соколов" "Владимир" "Михайлович" "Ведущий" 3 7;
    Actor.mk 9 "Попова" "Мария" "Андреевна" "Мастер" 5 9;
    Actor.mk 10 "Лебедев" "Сергей" "Николаевич" "Заслуженный" 6 12 ].

Definition plots : list Plot.t :=
  [ Plot.mk 1 "Ромео и Джульетта" 500000 350000 6 8 (ArrayText "{Ведущий,Мастер}");
    Plot.mk 2 "Гамлет" 800000 500000 8 9 (ArrayText "{Мастер,Заслуженный}");
    Plot.mk 3 "Чайка" 400000 250000 5 7 (ArrayText "{Постоянный,Ведущий}");
    Plot.mk 4 "Вишневый сад" 600000 400000 7 8 (ArrayText "{Ведущий,Мастер}");
    Plot.mk 5 "Три сестры" 550000 350000 6 7 (ArrayText "{Постоянный,Ведущий}");
    Plot.mk 6 "Отелло" 700000 450000 7 9 (ArrayText "{Мастер,Заслуженный}");
    Plot.mk 7 "Ревизор" 450000 300000 6 7 (ArrayText "{Ведущий}");
    Plot.mk 8 "Горе от ума" 500000 350000 7 8 (ArrayText "{Ведущий,Мастер}");
    Plot.mk 9 "Дядя Ваня" 400000 250000 5 6 (ArrayText "{Постоянный}");
    Plot.mk 10 "Маскарад" 650000 400000 8 8 (ArrayText "{Мастер}") ].

Definition performances : list Performance.t :=
  [ Performance.mk 1 "Ромео и Джульетта в современном мире" 1 2022 600000 950000 true;
    Performance.mk 2 "Гамлет: Перезагрузка" 2 2023 850000 1200000 true;
    Performance.mk 3 "Чайка над морем" 3 2024 500000 780000 true;
    Performance.mk 4 "Ромео и Джульетта" 1 2025 600000 0 false ].

Definition actor_performances : list ActorPerformance.t :=
  [ ActorPerformance.mk 1 1 "Ромео" 100000;
    ActorPerformance.mk 5 1 "Джульетта" 90000;
    ActorPerformance.mk 2 2 "Гамлет" 150000;
    ActorPerformance.mk 9 2 "Офелия" 120000;
    ActorPerformance.mk 3 3 "Нина Заречная" 130000;
    ActorPerformance.mk 1 4 "Ромео" 80000;
    ActorPerformance.mk 2 4 "Меркуцио" 80000;
    ActorPerformance.mk 4 4 "Тибальт" 80000;
    ActorPerformance.mk 5 4 "Джульетта" 80000;
    ActorPerformance.mk 6 4 "Бенволио" 80000;
    ActorPerformance.mk 7 4 "Кормилица" 80000 ].

Definition tables : Db.t :=
  Db.mk actors plots performances actor_performances (GameData.mk 2025 1000000).

(** Every draw of [random.random()] is one half. *)
Definition halves : Rng.t := Rng.mk (fun _ => 1 # 2) 0.

Definition world : World := mkWorld tables halves.

(** The same theatre with five plots left. *)
Definition small_tables : Db.t :=
  Db.mk actors (firstn 5 plots) performances actor_performances
        (GameData.mk 2025 1000000).

Definition small_world : World := mkWorld small_tables halves.




(** The same cast in a production of plot 2, whose first role asks for a
    Master: the first slot, held by a Lead actor, breaks the requirement. *)
Definition miscast_tables : Db.t :=
  Db.mk actors plots
        [ Performance.mk 4 "Гамлет" 2 2025 900000 0 false ]
        actor_performances (GameData.mk 2025 1000000).

Definition miscast_world : World := mkWorld miscast_tables halves.

End Sample.

(** ** Proof steps on actor rows *)

(** Reduce the field accesses and the setters of an actor row. *)
Ltac row_step :=
  cbn [Actor.actor_id Actor.last_name Actor.first_name Actor.patronymic
       Actor.rank Actor.awards_count Actor.experience Actor.set_awards_count
       Actor.set_rank Actor.set_experience orb andb] in *.

(** Close an equation between two actor rows. *)
Ltac row_done :=
  unfold settled_actor; row_step; rewrite ?Z.add_0_r; reflexivity.

(** * Properties *)

Unset Implicit Arguments.

(** ** The built-ins *)

Section Builtins.
Local Open Scope Z_scope.

Lemma index_In (x : string) (l : list string) :
  In x l -> exists i, index x l = Ok i /\ 0 <= i < Z.of_nat (List.length l).
Proof.
  induction l as [|y l IH]; intros Hin; [destruct Hin|].
  cbn [index List.length]. destruct (String.eqb_spec y x) as [E|N].
  - exists 0. split; [reflexivity | lia].
  - destruct Hin as [E|Hin]; [contradiction|].
    destruct (IH Hin) as (i & Hi & Hb). rewrite Hi. cbn.
    exists (i + 1). split; [reflexivity | lia].
Qed.

Lemma index_Ok (x : string) (l : list string) (i : Z) :
  index x l = Ok i ->
  0 <= i < Z.of_nat (List.length l) /\ nth_error l (Z.to_nat i) = Some x.
Proof.
  revert i. induction l as [|y l IH]; intros i H; cbn [index] in H; [discriminate|].
  destruct (String.eqb_spec y x) as [E|N].
  - injection H as <-. subst y. cbn. split; [lia | reflexivity].
  - destruct (index x l) as [j|e] eqn:Ej; cbn in H; [|discriminate].
    injection H as <-. destruct (IH j eq_refl) as [Hb Hn].
    cbn [List.length]. split; [lia|].
    replace (Z.to_nat (j + 1)) with (S (Z.to_nat j)) by lia. exact Hn.
Qed.

Lemma index_Raise (x : string) (l : list string) (e : exn) :
  index x l = Raise e -> ~ In x l.
Proof.
  intros H Hin. destruct (index_In x l Hin) as (i & Hi & _). congruence.
Qed.

Lemma contains_In (x : string) (l : list string) :
  contains x l = true <-> In x l.
Proof.
  unfold contains. rewrite existsb_exists. split.
  - intros (y & Hy & E). apply String.eqb_eq in E. subst. exact Hy.
  - intros H. exists x. split; [exact H | apply String.eqb_refl].
Qed.

Lemma int_floor (x : Q) : (0 <= x)%Q -> int x = Qfloor x.
Proof.
  intros H. unfold int, Qfloor. destruct x as [n d]. cbn [Qnum Qden].
  apply Z.quot_div_nonneg; [|lia].
  unfold Qle in H. cbn in H. lia.
Qed.

Lemma float_lt_true (x y : Q) : float_lt x y = true <-> (x < y)%Q.
Proof.
  unfold float_lt. rewrite negb_true_iff. split.
  - intros H. apply Qnot_le_lt. intros L. apply Qle_bool_iff in L. congruence.
  - intros H. destruct (Qle_bool y x) eqn:E; [|reflexivity].
    apply Qle_bool_iff in E. exfalso. apply (Qlt_not_le _ _ H E).
Qed.

Lemma float_lt_false (x y : Q) : float_lt x y = false <-> (y <= x)%Q.
Proof.
  unfold float_lt. rewrite negb_false_iff. apply Qle_bool_iff.
Qed.

Lemma uniform_of_range (a b u : Q) :
  (a <= b)%Q -> unit_draw u -> (a <= uniform_of a b u /\ uniform_of a b u <= b)%Q.
Proof.
  unfold unit_draw, uniform_of. intros Hab [H0 H1]. split; nra.
Qed.

Lemma rank_index_known (r : string) :
  known_rank r -> index r rank_order = Ok (rank_index r) /\ 0 <= rank_index r <= 5.
Proof.
  intros H. unfold rank_index.
  destruct (index_In r rank_order H) as (i & Hi & Hb). rewrite Hi.
  split; [reflexivity|]. cbn in Hb. lia.
Qed.

Lemma rank_order_values : rank_order = ActorRank_values.
Proof. reflexivity. Qed.

End Builtins.

(** ** Contract pricing *)

Section ContractCost.
Local Open Scope Z_scope.

Lemma contract_cost_run (a : Actor.t) :
  known_rank (Actor.rank a) ->
  calculate_contract_cost a
  = Ok (mkCost (contract_figure a) (inject_Z (contract_figure a) / 5)%Q
               (inject_Z (contract_figure a) + inject_Z (contract_figure a) / 5)%Q).
Proof.
  intros H. destruct (rank_index_known _ H) as [Hi _].
  unfold calculate_contract_cost. rewrite Hi. reflexivity.
Qed.

Lemma contract_cost_fields (a : Actor.t) (cost : CostBreakdown) :
  known_rank (Actor.rank a) ->
  calculate_contract_cost a = Ok cost ->
  contract cost = contract_figure a
  /\ premium cost = (inject_Z (contract cost) / 5)%Q
  /\ total cost = (inject_Z (contract cost) + premium cost)%Q.
Proof.
  intros H E. rewrite (contract_cost_run a H) in E. injection E as <-.
  repeat split.
Qed.

(** The contract is a multiple of 5: the premium [contract / 5] is a whole
    number, which a binary64 float holds exactly. *)
Lemma premium_whole (a : Actor.t) :
  (inject_Z (contract_figure a) / 5
   == inject_Z (6000 + rank_index (Actor.rank a) * 2000
                + Actor.experience a * 400 + Actor.awards_count a * 1000))%Q.
Proof.
  unfold contract_figure. rewrite !inject_Z_plus, !inject_Z_mult. field.
Qed.

(** C7.  For an actor whose rank is one of the six ranks, the contract is
    30000 + 10000 * rank index + 2000 * experience + 5000 * awards, the
    premium a fifth of it and the total their sum; the function is pure and
    returns.  Between two such actors the contract (and the total) grows
    strictly with the rank index, with the experience and with the awards,
    the other two being equal. *)
Theorem contract_cost_spec (a : Actor.t) (Ha : known_rank (Actor.rank a)) :
  (exists cost,
      calculate_contract_cost a = Ok cost
      /\ contract cost
         = 30000 + rank_index (Actor.rank a) * 10000
           + Actor.experience a * 2000 + Actor.awards_count a * 5000
      /\ 0 <= rank_index (Actor.rank a) <= 5
      /\ index (Actor.rank a) rank_order = Ok (rank_index (Actor.rank a))
      /\ premium cost = (inject_Z (contract cost) / 5)%Q
      /\ total cost = (inject_Z (contract cost) + premium cost)%Q)
  /\ forall b ca cb,
      known_rank (Actor.rank b) ->
      calculate_contract_cost a = Ok ca ->
      calculate_contract_cost b = Ok cb ->
      (rank_index (Actor.rank a) < rank_index (Actor.rank b) ->
       Actor.experience a = Actor.experience b ->
       Actor.awards_count a = Actor.awards_count b ->
       contract ca < contract cb /\ (total ca < total cb)%Q)
      /\ (rank_index (Actor.rank a) = rank_index (Actor.rank b) ->
          Actor.experience a < Actor.experience b ->
          Actor.awards_count a = Actor.awards_count b ->
          contract ca < contract cb /\ (total ca < total cb)%Q)
      /\ (rank_index (Actor.rank a) = rank_index (Actor.rank b) ->
          Actor.experience a = Actor.experience b ->
          Actor.awards_count a < Actor.awards_count b ->
          contract ca < contract cb /\ (total ca < total cb)%Q).
Proof.
  split.
  - eexists. split; [apply (contract_cost_run a Ha)|].
    destruct (contract_cost_fields a _ Ha (contract_cost_run a Ha)) as (Hc & Hp & Ht).
    destruct (rank_index_known _ Ha) as [Hi Hb].
    split; [exact Hc|]. split; [exact Hb|]. split; [exact Hi|].
    split; [exact Hp | exact Ht].
  - intros b ca cb Hb Ea Eb.
    destruct (contract_cost_fields a ca Ha Ea) as (Ca & Pa & Ta).
    destruct (contract_cost_fields b cb Hb Eb) as (Cb & Pb & Tb).
    rewrite Ta, Tb, Pa, Pb, Ca, Cb. unfold contract_figure.
    assert (mono : forall x y : Z,
               x < y -> x < y /\ (inject_Z x + inject_Z x / 5
                                  < inject_Z y + inject_Z y / 5)%Q).
    { intros x y L. split; [exact L|]. rewrite Zlt_Qlt in L.
      unfold Qdiv. cbn [Qinv Qnum Qden]. clear - L. lra. }
    repeat split; intros; apply mono; lia.
Qed.

Lemma contract_cost_spec_witness :
  exists cost,
    calculate_contract_cost (Actor.mk 1 "Иванов" "Иван" "Иванович" "Ведущий" 3 5)
    = Ok cost
    /\ contract cost = 75000 /\ premium cost = (75000 / 5)%Q.
Proof.
  destruct (@contract_cost_spec
              (Actor.mk 1 "Иванов" "Иван" "Иванович" "Ведущий" 3 5))
    as [(cost & Hrun & Hc & _ & _ & Hp & _) _].
  - cbn. tauto.
  - exists cost. split; [exact Hrun|]. split; [exact Hc|].
    rewrite Hp, Hc. reflexivity.
Defined.

End ContractCost.

(** ** The year skip *)

Section SkipYear.
Local Open Scope Z_scope.

Lemma skip_year_run (w : World) :
  let y := GameData.current_year (Db.game_data (db w)) in
  let c := GameData.capital (Db.game_data (db w)) in
  let rights := int (inject_Z c * uniform_of 0.1 0.2 (draw w 0)) in
  skip_year w
  = (Ok (mkSkip (y + 1) (c + rights) rights),
     mkWorld (Db.set_game_data (GameData.mk (y + 1) (c + rights)) (db w))
             (advance 1 (rng w))).
Proof. reflexivity. Qed.



End SkipYear.

(** ** Plot deletion *)

Section DeletePlot.
Local Open Scope Z_scope.

Lemma delete_plot_run (plot_id : Z) (w : World) :
  delete_plot plot_id w
  = if count_performances_of_plot plot_id (db w) >? 0
    then (Ok (false, MSG_PLOT_IN_USE), w)
    else if count_plots (db w) <=? 5
         then (Ok (false, MSG_MIN_PLOTS), w)
         else (Ok (true, EmptyString),
               mkWorld (delete_from_plots plot_id (db w)) (rng w)).
Proof.
  unfold delete_plot, bind, query, execute, ret.
  destruct (count_performances_of_plot plot_id (db w) >? 0); [reflexivity|].
  destruct (count_plots (db w) <=? 5); reflexivity.
Qed.

Lemma count_performances_pos (plot_id : Z) (d : Db.t) :
  count_performances_of_plot plot_id d > 0
  <-> exists p, In p (Db.performances d) /\ Performance.plot_id p = plot_id.
Proof.
  unfold count_performances_of_plot. split.
  - intros H.
    destruct (filter (fun p => Performance.plot_id p =? plot_id) (Db.performances d))
      as [|p l] eqn:E; [cbn in H; lia|].
    assert (Hin : In p (filter (fun p => Performance.plot_id p =? plot_id)
                               (Db.performances d))) by (rewrite E; left; reflexivity).
    apply filter_In in Hin. destruct Hin as [Hin Hp].
    exists p. split; [exact Hin | lia].
  - intros (p & Hin & Hp).
    assert (Hf : In p (filter (fun p => Performance.plot_id p =? plot_id)
                              (Db.performances d))).
    { apply filter_In. split; [exact Hin | lia]. }
    destruct (filter _ _); [destruct Hf | cbn [List.length]; lia].
Qed.

(** C9.  Deleting a plot that some performance refers to fails with the
    message that the plot is used in performances, and changes nothing. *)
Theorem delete_plot_in_use (plot_id : Z) (w : World)
        (Hused : exists p, In p (Db.performances (db w))
                           /\ Performance.plot_id p = plot_id) :
  delete_plot plot_id w = (Ok (false, MSG_PLOT_IN_USE), w).
Proof.
  rewrite delete_plot_run. apply count_performances_pos in Hused.
  destruct (count_performances_of_plot plot_id (db w) >? 0) eqn:E; [reflexivity|].
  lia.
Qed.

Lemma delete_plot_in_use_witness :
  delete_plot 1 Sample.world = (Ok (false, MSG_PLOT_IN_USE), Sample.world).
Proof.
  apply (delete_plot_in_use 1 Sample.world).
  exists (Performance.mk 4 "Ромео и Джульетта" 1 2025 600000 0 false).
  split; [|reflexivity]. cbn. tauto.
Defined.

(** C10, as stated: with five plots or fewer the deletion would always
    answer with the minimum-count message.  A plot in use among five answers
    with the in-use message instead. *)
Lemma delete_plot_min_message_counterexample :
  ~ (forall (plot_id : Z) (w : World),
        count_plots (db w) <= 5 ->
        delete_plot plot_id w = (Ok (false, MSG_MIN_PLOTS), w)).
Proof.
  intros H. specialize (H 1 Sample.small_world).
  assert (L : count_plots (db Sample.small_world) <= 5) by (cbn; lia).
  specialize (H L). rewrite delete_plot_run in H.
  cbn in H. discriminate H.
Qed.

Lemma filter_length_NoDup (plot_id : Z) (l : list Plot.t) :
  NoDup (map Plot.plot_id l) ->
  (List.length l
   <= S (List.length (filter (fun pl => negb (Plot.plot_id pl =? plot_id)%Z) l)))%nat.
Proof.
  induction l as [|p l IH]; intros Hnd; [cbn; lia|].
  cbn [map] in Hnd. inversion Hnd as [|x xs Hnotin Hnd']; subst.
  cbn [filter List.length]. destruct (Plot.plot_id p =? plot_id) eqn:E; cbn [negb].
  - assert (Hall : filter (fun pl => negb (Plot.plot_id pl =? plot_id)) l = l).
    { apply forallb_filter_id. apply forallb_forall. intros q Hq.
      apply negb_true_iff, Z.eqb_neq. intros Eq.
      apply Hnotin. apply in_map_iff. exists q. split; [lia | exact Hq]. }
    rewrite Hall. lia.
  - cbn [List.length]. specialize (IH Hnd'). lia.
Qed.

(** C10, amended.  With five plots or fewer the deletion fails and changes
    nothing; its message is the minimum-count message when no performance
    refers to the plot.  With plot ids a key, a deletion that succeeds leaves
    five plots or more. *)
Theorem delete_plot_min_plots (plot_id : Z) (w : World)
        (Hkey : NoDup (map Plot.plot_id (Db.plots (db w)))) :
  (count_plots (db w) <= 5 ->
   exists msg, delete_plot plot_id w = (Ok (false, msg), w)
               /\ ((forall p, In p (Db.performances (db w)) ->
                              Performance.plot_id p <> plot_id) ->
                   msg = MSG_MIN_PLOTS))
  /\ (forall msg w',
         delete_plot plot_id w = (Ok (true, msg), w') ->
         5 <= count_plots (db w')
         /\ 5 < count_plots (db w)
         /\ db w' = delete_from_plots plot_id (db w)).
Proof.
  rewrite delete_plot_run. split.
  - intros Hfew.
    destruct (count_performances_of_plot plot_id (db w) >? 0) eqn:E.
    + exists MSG_PLOT_IN_USE. split; [reflexivity|]. intros Hfree. exfalso.
      assert (Hpos : count_performances_of_plot plot_id (db w) > 0) by lia.
      apply count_performances_pos in Hpos. destruct Hpos as (p & Hin & Hp).
      exact (Hfree p Hin Hp).
    + destruct (count_plots (db w) <=? 5) eqn:E5; [|lia].
      exists MSG_MIN_PLOTS. split; reflexivity.
  - intros msg w' Hrun.
    destruct (count_performances_of_plot plot_id (db w) >? 0); [discriminate Hrun|].
    destruct (count_plots (db w) <=? 5) eqn:E5; [discriminate Hrun|].
    injection Hrun as _ <-. cbn [db].
    split; [|split; [lia | reflexivity]].
    unfold count_plots in *. unfold delete_from_plots. cbn [Db.plots Db.set_plots].
    pose proof (filter_length_NoDup plot_id (Db.plots (db w)) Hkey). lia.
Qed.

Lemma delete_plot_min_plots_witness :
  (exists msg,
      delete_plot 6 Sample.small_world = (Ok (false, msg), Sample.small_world)
      /\ msg = MSG_MIN_PLOTS)
  /\ 5 <= count_plots (db (snd (delete_plot 6 Sample.world))).
Proof.
  split.
  - destruct (delete_plot_min_plots 6 Sample.small_world) as [H _].
    + cbn. repeat constructor; cbn; intuition lia.
    + destruct H as (msg & Hrun & Hmsg); [cbn; lia|].
      exists msg. split; [exact Hrun|]. apply Hmsg.
      intros p Hin. cbn in Hin.
      repeat (destruct Hin as [<- | Hin]; [cbn; lia|]). destruct Hin.
  - destruct (delete_plot_min_plots 6 Sample.world) as [_ H].
    + cbn. repeat constructor; cbn; intuition lia.
    + apply (H EmptyString (snd (delete_plot 6 Sample.world))). reflexivity.
Defined.

End DeletePlot.

(** ** Sorting and the joins *)

Section Sorting.
Context {K A : Type} (ltb : K -> K -> bool).

Lemma insert_desc_perm (k : K) (x : A) (l : list (K * A)) :
  Permutation (insert_desc ltb k x l) ((k, x) :: l).
Proof.
  induction l as [|[k' y] l IH]; cbn [insert_desc]; [reflexivity|].
  destruct (ltb k k'); [|reflexivity].
  rewrite IH. apply perm_swap.
Qed.

Lemma sort_desc_perm (l : list (K * A)) : Permutation (sort_desc ltb l) l.
Proof.
  induction l as [|[k x] l IH]; cbn [sort_desc]; [reflexivity|].
  rewrite insert_desc_perm. apply perm_skip, IH.
Qed.

Lemma sorted_by_perm (key : A -> K) (l : list A) :
  Permutation (map snd (sort_desc ltb (map (fun x => (key x, x)) l))) l.
Proof.
  rewrite sort_desc_perm, map_map. cbn [snd]. rewrite map_id. reflexivity.
Qed.

Lemma sorted_by_In (key : A -> K) (l : list A) (x : A) :
  In x (map snd (sort_desc ltb (map (fun x => (key x, x)) l))) <-> In x l.
Proof.
  split; apply Permutation_in; [|symmetry]; apply sorted_by_perm.
Qed.

End Sorting.

Section Joins.
Local Open Scope Z_scope.

Lemma select_performances_In (d : Db.t) (p : Performance.t) :
  In p (select_performances d) -> In p (Db.performances d).
Proof.
  unfold select_performances. rewrite sorted_by_In, in_flat_map.
  intros (q & Hq & Hin). apply in_map_iff in Hin.
  destruct Hin as (pl & E & _). subst q. exact Hq.
Qed.

Lemma select_performances_plot (d : Db.t) (p : Performance.t) :
  In p (select_performances d) ->
  exists plot,
    find (fun pl => Plot.plot_id pl =? Performance.plot_id p) (Db.plots d)
    = Some plot.
Proof.
  unfold select_performances. rewrite sorted_by_In, in_flat_map.
  intros (q & Hq & Hin). apply in_map_iff in Hin.
  destruct Hin as (pl & E & Hpl). subst q. apply filter_In in Hpl.
  destruct (find (fun pl => Plot.plot_id pl =? Performance.plot_id p) (Db.plots d))
    as [plot|] eqn:F; [exists plot; reflexivity|].
  destruct Hpl as [Hin Hid].
  pose proof (find_none _ _ F pl Hin) as N. cbn in N. congruence.
Qed.

Lemma cast_row_In (performance_id : Z) (d : Db.t) (c : CastRow.t) :
  In c (select_actors_in_performance performance_id d)
  <-> exists a ap,
      In a (Db.actors d) /\ In ap (Db.actor_performances d)
      /\ plays_in performance_id a ap = true
      /\ c = CastRow.mk a (ActorPerformance.role ap)
                        (ActorPerformance.contract_cost ap).
Proof.
  unfold select_actors_in_performance. rewrite sorted_by_In, in_flat_map. split.
  - intros (a & Ha & Hin). apply in_map_iff in Hin.
    destruct Hin as (ap & E & Hap). apply filter_In in Hap.
    exists a, ap. intuition congruence.
  - intros (a & ap & Ha & Hap & Hp & E). exists a. split; [exact Ha|].
    apply in_map_iff. exists ap. split; [congruence|].
    apply filter_In. split; assumption.
Qed.

(** Every actor row that carries the id of a cast member is in the cast. *)
Lemma cast_row_of_actor (performance_id : Z) (d : Db.t) (c : CastRow.t)
      (a : Actor.t) :
  In c (select_actors_in_performance performance_id d) ->
  In a (Db.actors d) ->
  Actor.actor_id a = CastRow.actor_id c ->
  exists c', In c' (select_actors_in_performance performance_id d)
             /\ CastRow.actor c' = a.
Proof.
  intros Hc Ha Hid. apply cast_row_In in Hc.
  destruct Hc as (a0 & ap & Ha0 & Hap & Hp & E). subst c.
  exists (CastRow.mk a (ActorPerformance.role ap) (ActorPerformance.contract_cost ap)).
  split; [|reflexivity]. apply cast_row_In. exists a, ap.
  repeat split; try assumption.
  unfold plays_in in *. unfold CastRow.actor_id in Hid. cbn in Hid.
  rewrite Hid. exact Hp.
Qed.

Lemma cast_row_actor (performance_id : Z) (d : Db.t) (c : CastRow.t) :
  In c (select_actors_in_performance performance_id d) ->
  In (CastRow.actor c) (Db.actors d)
  /\ in_cast performance_id d (CastRow.actor c) = true.
Proof.
  intros Hc. apply cast_row_In in Hc.
  destruct Hc as (a & ap & Ha & Hap & Hp & E). subst c. cbn.
  split; [exact Ha|]. unfold in_cast. apply existsb_exists.
  exists ap. split; assumption.
Qed.

Lemma find_actor_map (g : Actor.t -> Actor.t) (actor_id : Z) (l : list Actor.t) :
  (forall a, Actor.actor_id (g a) = Actor.actor_id a) ->
  find (fun a => Actor.actor_id a =? actor_id) (map g l)
  = option_map g (find (fun a => Actor.actor_id a =? actor_id) l).
Proof.
  intros Hg. induction l as [|a l IH]; [reflexivity|].
  cbn [map find]. rewrite Hg. destruct (Actor.actor_id a =? actor_id).
  - reflexivity.
  - exact IH.
Qed.

End Joins.

(** ** Running the methods *)

Section Running.
Local Open Scope Z_scope.

Lemma random_factor_run (actors_match_requirements : bool) (fate_roll : Q)
      (w : World) :
  random_factor_of actors_match_requirements fate_roll w
  = (Ok (random_factor_value actors_match_requirements fate_roll (draw w 0)),
     mkWorld (db w) (advance 1 (rng w))).
Proof.
  unfold random_factor_of, random_factor_value.
  destruct actors_match_requirements;
    repeat match goal with |- context [float_lt ?x ?y] => destruct (float_lt x y) end;
    reflexivity.
Qed.

Lemma next_rank_nth (r : string) :
  known_rank r -> rank_index r < 5 ->
  nth_error ActorRank_values (Z.to_nat (rank_index r + 1)) = Some (next_rank r).
Proof.
  intros H L. destruct (rank_index_known r H) as [_ Hb]. unfold next_rank.
  rewrite Z.min_l by lia. rewrite <- rank_order_values.
  assert (Hlen : (Z.to_nat (rank_index r + 1) < List.length rank_order)%nat)
    by (cbn; lia).
  apply nth_error_nth'. exact Hlen.
Qed.

Lemma upgrade_run (actor_id : Z) (w : World) (a : Actor.t) :
  select_actor actor_id (db w) = Some a ->
  known_rank (Actor.rank a) ->
  upgrade_actor_rank actor_id w
  = (Ok (rank_index (Actor.rank a) <? 5),
     mkWorld (promoted_db actor_id (db w)) (rng w)).
Proof.
  intros Hsel Hk. unfold upgrade_actor_rank, promoted_db, bind, query, lift.
  rewrite Hsel. destruct (rank_index_known _ Hk) as [Hi Hb].
  rewrite <- rank_order_values, Hi.
  change (Z.of_nat (List.length rank_order) - 1) with 5.
  destruct (rank_index (Actor.rank a) <? 5) eqn:L.
  - rewrite rank_order_values, (next_rank_nth _ Hk) by lia. reflexivity.
  - destruct w; reflexivity.
Qed.

Lemma award_loop_tail_run (top : list CastRow.t) (profit total_expenses : Z) :
  forall (i : nat) (w : World),
    (0 < i)%nat ->
    award_loop i top profit total_expenses w
    = (Ok top,
       mkWorld (fold_left (fun d c => add_award (CastRow.actor_id c) d) top (db w))
               (rng w)).
Proof.
  induction top as [|c rest IH]; intros i w Hi.
  - destruct w; reflexivity.
  - cbn [award_loop fold_left].
    destruct i as [|i]; [lia|]. cbn [Nat.eqb andb].
    unfold bind at 1 2 3. unfold award_actor, bind, execute, ret.
    rewrite IH by lia. reflexivity.
Qed.

Lemma award_loop_run (top : list CastRow.t) (profit total_expenses : Z)
      (w : World) :
  (forall c, hd_error top = Some c ->
             exists a,
               select_actor (CastRow.actor_id c)
                            (add_award (CastRow.actor_id c) (db w)) = Some a
               /\ known_rank (Actor.rank a)) ->
  award_loop 0 top profit total_expenses w
  = (Ok top,
     mkWorld (awarded_db top
                (float_lt (inject_Z total_expenses * 0.3)%Q (inject_Z profit))
                (db w))
             (rng w)).
Proof.
  destruct top as [|c rest]; intros Hhd.
  - destruct w; reflexivity.
  - destruct (Hhd c eq_refl) as (a & Hsel & Hk).
    cbn [award_loop awarded_db Nat.eqb andb].
    unfold bind at 1. unfold award_actor, bind at 1, execute, ret.
    unfold bind at 1.
    destruct (float_lt (inject_Z total_expenses * 0.3)%Q (inject_Z profit)).
    + unfold bind at 1.
      rewrite (upgrade_run _ (mkWorld _ _) a Hsel Hk). cbn [db rng].
      unfold bind at 1. rewrite award_loop_tail_run by lia. reflexivity.
    + unfold bind at 1. rewrite award_loop_tail_run by lia. reflexivity.
Qed.

End Running.

(** ** The loops of the settlement *)

Section Loops.
Local Open Scope Z_scope.

(** The value the bonus loop accumulates on a cast of known ranks. *)
Lemma actors_bonus_loop_known (actors : list CastRow.t) :
  Forall (fun c => known_rank (CastRow.rank c)) actors ->
  forall acc : Q,
    actors_bonus_loop actors acc
    = Ok (fold_left
            (fun acc c =>
               (acc + actor_contribution c (rank_index (CastRow.rank c)))%Q)
            actors acc).
Proof.
  induction 1 as [|c rest Hc _ IH]; intros acc; [reflexivity|].
  cbn [actors_bonus_loop fold_left].
  destruct (rank_index_known _ Hc) as [Hi _]. rewrite Hi. cbn [res_bind].
  apply IH.
Qed.

Lemma actor_contribution_term (c : CastRow.t) :
  (actor_contribution c (rank_index (CastRow.rank c)) == bonus_term c)%Q.
Proof. unfold actor_contribution, bonus_term. ring. Qed.

Lemma bonus_fold_sum (actors : list CastRow.t) :
  forall acc : Q,
    (fold_left
       (fun acc c => acc + actor_contribution c (rank_index (CastRow.rank c)))
       actors acc
     == acc + sumQ (map bonus_term actors))%Q.
Proof.
  induction actors as [|c rest IH]; intros acc; cbn [fold_left map sumQ fold_right].
  - ring.
  - rewrite IH, actor_contribution_term. fold (sumQ (map bonus_term rest)). ring.
Qed.

Lemma total_spent_sum (plot : Plot.t) (actors : list CastRow.t) :
  total_spent_of plot actors
  = Plot.production_cost plot + sumZ (map CastRow.contract_cost actors).
Proof.
  unfold total_spent_of. generalize (Plot.production_cost plot) as acc.
  induction actors as [|c rest IH]; intros acc; cbn [fold_left map sumZ fold_right].
  - lia.
  - rewrite IH. fold (sumZ (map CastRow.contract_cost rest)). lia.
Qed.

(** The rank check from slot [i] on: it returns, and returns [false] exactly
    when one of the remaining slots breaks its requirement. *)
Lemma requirements_loop_spec (required_ranks : list string)
      (actors : list CastRow.t) :
  Forall (fun c => known_rank (CastRow.rank c)) actors ->
  forall i : nat,
  exists b,
    requirements_loop required_ranks i actors = Ok b
    /\ (b = false <->
        exists k actor required_rank,
          nth_error actors k = Some actor
          /\ nth_error required_ranks (i + k) = Some required_rank
          /\ known_rank required_rank
          /\ rank_index (CastRow.rank actor) < rank_index required_rank).
Proof.
  induction 1 as [|c rest Hc _ IH]; intros i.
  - exists true. split; [reflexivity|]. split; [discriminate|].
    intros (k & actor & r & Hn & _). destruct k; discriminate Hn.
  - cbn [requirements_loop].
    destruct (IH (S i)) as (b & Hb & Hiff).
    assert (Hskip :
      ~ (exists r, nth_error required_ranks i = Some r /\ known_rank r
                   /\ rank_index (CastRow.rank c) < rank_index r) ->
      exists b0, requirements_loop required_ranks (S i) rest = Ok b0
        /\ (b0 = false <->
            exists k actor required_rank,
              nth_error (c :: rest) k = Some actor
              /\ nth_error required_ranks (i + k) = Some required_rank
              /\ known_rank required_rank
              /\ rank_index (CastRow.rank actor) < rank_index required_rank)).
    { intros Hno. exists b. split; [exact Hb|]. rewrite Hiff. split.
      - intros (k & actor & r & Hn & Hr & Hk & Hlt).
        exists (S k), actor, r. cbn [nth_error].
        replace (i + S k)%nat with (S i + k)%nat by lia. tauto.
      - intros (k & actor & r & Hn & Hr & Hk & Hlt). destruct k as [|k].
        + exfalso. apply Hno. exists r. cbn in Hn. injection Hn as <-.
          rewrite Nat.add_0_r in Hr. tauto.
        + exists k, actor, r. cbn [nth_error] in Hn.
          replace (i + S k)%nat with (S i + k)%nat in Hr by lia. tauto. }
    destruct (nth_error required_ranks i) as [r|] eqn:Hr.
    + destruct (contains r rank_order) eqn:Hin.
      * apply contains_In in Hin.
        destruct (rank_index_known _ Hc) as [Hci _].
        destruct (rank_index_known _ Hin) as [Hri _].
        rewrite Hci, Hri. cbn [res_bind].
        destruct (rank_index (CastRow.rank c) <? rank_index r) eqn:L.
        -- exists false. split; [reflexivity|]. split; [|reflexivity].
           intros _. exists 0%nat, c, r. rewrite Nat.add_0_r.
           repeat split; try assumption. lia.
        -- apply Hskip. intros (r' & E & _ & Hlt). injection E as <-. lia.
      * apply Hskip. intros (r' & E & Hk & _). injection E as <-.
        apply contains_In in Hk. congruence.
    + apply Hskip. intros (r' & E & _). discriminate E.
Qed.

Lemma actors_match_requirements_spec (required_ranks : list string)
      (actors : list CastRow.t) :
  Forall (fun c => known_rank (CastRow.rank c)) actors ->
  exists b,
    actors_match_requirements_of required_ranks actors = Ok b
    /\ (b = false <-> exists i, violates required_ranks actors i).
Proof.
  intros Hk. unfold actors_match_requirements_of, violates.
  destruct required_ranks as [|r0 rs].
  - exists true. split; [reflexivity|]. split; [discriminate|].
    intros (i & actor & r & _ & Hr & _). destruct i; discriminate Hr.
  - destruct (requirements_loop_spec (r0 :: rs) actors Hk 0) as (b & Hb & Hiff).
    exists b. split; [exact Hb|]. exact Hiff.
Qed.

Lemma sorted_actors_known (actors : list CastRow.t) :
  Forall (fun c => known_rank (CastRow.rank c)) actors ->
  sorted_actors_of actors
  = Ok (map snd (sort_desc tuple3_ltb (map (fun c => (award_key c, c)) actors))).
Proof.
  intros Hk. unfold sorted_actors_of.
  assert (E : map_res (fun a => res_bind (sort_key a) (fun k => Ok (k, a))) actors
              = Ok (map (fun c => (award_key c, c)) actors)).
  { induction Hk as [|c rest Hc _ IH]; [reflexivity|].
    cbn [map_res map]. unfold sort_key at 1.
    destruct (rank_index_known _ Hc) as [Hi _]. rewrite Hi. cbn [res_bind].
    rewrite IH. reflexivity. }
  rewrite E. reflexivity.
Qed.

End Loops.

(** ** A settlement that goes through *)

Section Settle.
Local Open Scope Z_scope.
Local Open Scope monad_scope.

Lemma hd_firstn_In {A : Type} (n : nat) (l : list A) (x : A) :
  hd_error (firstn n l) = Some x -> In x l.
Proof.
  destruct n as [|n]; [discriminate|].
  destruct l as [|y l]; [discriminate|].
  cbn. intros E. injection E as <-. left. reflexivity.
Qed.

(** The award phase, for a profit and a total of expenses. *)
Lemma award_phase_run (actors : list CastRow.t) (profit total_expenses : Z)
      (w : World) :
  Forall (fun c => known_rank (CastRow.rank c)) actors ->
  (forall c, In c actors ->
             exists a,
               select_actor (CastRow.actor_id c)
                            (add_award (CastRow.actor_id c) (db w)) = Some a
               /\ known_rank (Actor.rank a)) ->
  (if profit >? 0 then
     sorted_actors <- lift (sorted_actors_of actors) ;;
     award_loop 0 (firstn 3 sorted_actors) profit total_expenses
   else ret []) w
  = let awarded :=
      if profit >? 0 then
        match sorted_actors_of actors with
        | Ok sorted_actors => firstn 3 sorted_actors
        | Raise _ => []
        end
      else [] in
    (Ok awarded,
     mkWorld (awarded_db awarded
                (float_lt (inject_Z total_expenses * 0.3)%Q (inject_Z profit))
                (db w))
             (rng w)).
Proof.
  intros Hk Hsel. cbv zeta. destruct (profit >? 0).
  - rewrite (sorted_actors_known _ Hk). unfold bind at 1, lift.
    apply award_loop_run. intros c Hc. apply Hsel.
    apply hd_firstn_In in Hc. apply sorted_by_In in Hc. exact Hc.
  - destruct w; reflexivity.
Qed.

Lemma select_after_settle (performance_id te rev saved unexp : Z) (d : Db.t)
      (c : CastRow.t) :
  cast_ranks_known performance_id d ->
  In c (select_actors_in_performance performance_id d) ->
  exists a,
    select_actor (CastRow.actor_id c)
      (add_award (CastRow.actor_id c)
                 (settled_db performance_id te rev saved unexp d)) = Some a
    /\ known_rank (Actor.rank a).
Proof.
  intros Hk Hc. unfold select_actor, add_award, settled_db, bump_experience.
  cbn [Db.actors Db.set_actors Db.set_game_data set_performance_completed
       set_performance_budget Db.set_performances Db.actor_performances].
  rewrite !find_actor_map.
  2:{ intros a. destruct (existsb _ _); reflexivity. }
  2:{ intros a. destruct (Actor.actor_id a =? CastRow.actor_id c); reflexivity. }
  destruct (cast_row_actor _ _ _ Hc) as [Hin _].
  destruct (find (fun a => Actor.actor_id a =? CastRow.actor_id c) (Db.actors d))
    as [a0|] eqn:F.
  - apply find_some in F. destruct F as [Ha0 Hid].
    destruct (cast_row_of_actor performance_id d c a0 Hc Ha0) as (c' & Hc' & E);
      [lia|].
    eexists. split; [reflexivity|]. cbn [option_map].
    unfold cast_ranks_known in Hk. rewrite Forall_forall in Hk.
    specialize (Hk c' Hc'). unfold CastRow.rank in Hk. rewrite E in Hk.
    destruct (existsb _ _); destruct (_ =? _); exact Hk.
  - exfalso. pose proof (find_none _ _ F _ Hin) as N. cbn in N.
    unfold CastRow.actor_id in N. lia.
Qed.

Lemma settle_run (performance_id : Z) (w : World) (performance : Performance.t) :
  pending performance_id (db w) performance ->
  cast_ranks_known performance_id (db w) ->
  exists plot compliant bonus,
    let actors := select_actors_in_performance performance_id (db w) in
    find (fun p => Plot.plot_id p =? Performance.plot_id performance)
         (Db.plots (db w)) = Some plot
    /\ actors_match_requirements_of
         (parse_required_ranks (Plot.required_ranks plot)) actors = Ok compliant
    /\ actors_bonus_loop actors 0%Q = Ok bonus
    /\ let f := figures performance plot actors compliant bonus
                        (draw w 0) (draw w 1) (draw w 2) in
       calculate_performance_result performance_id w
       = (Ok (true, Result (settlement_of performance actors f)),
          mkWorld (final_db performance_id actors f (db w)) (advance 3 (rng w))).
Proof.
  intros [Hfind Hpend] Hk.
  destruct (select_performances_plot (db w) performance) as (plot & Hplot).
  { apply find_some in Hfind. apply Hfind. }
  destruct (actors_match_requirements_spec
              (parse_required_ranks (Plot.required_ranks plot)) _ Hk)
    as (compliant & Hflag & _).
  pose proof (actors_bonus_loop_known _ Hk 0%Q) as Hbonus.
  exists plot, compliant. eexists. cbv zeta.
  split; [exact Hplot|]. split; [exact Hflag|]. split; [exact Hbonus|].
  unfold calculate_performance_result.
  unfold bind at 1. unfold get_performances, query. rewrite Hfind, Hpend.
  unfold bind at 1. unfold get_plots, query.
  unfold bind at 1. rewrite Hplot. unfold subscriptable, ret at 1.
  unfold bind at 1. unfold get_actors_in_performance, query.
  unfold bind at 1. unfold Random.uniform, bind at 1, Random.random at 1, ret at 1.
  cbn [db rng].
  unfold bind at 1. unfold lift at 1. rewrite Hflag.
  unfold bind at 1. unfold lift at 1. rewrite Hbonus.
  unfold bind at 1. unfold Random.random at 1. cbn [db rng Rng.tape Rng.pos].
  unfold bind at 1. rewrite random_factor_run. cbn [db rng].
  unfold bind at 1.
  unfold update_performance_budget, bind at 1, execute at 1, ret at 1.
  cbn [db rng].
  unfold bind at 1.
  unfold complete_performance, bind at 1, execute at 1, bind at 1, execute at 1,
    ret at 1.
  cbn [db rng].
  unfold bind at 1. unfold get_game_data, query.
  unfold bind at 1. unfold update_game_data, bind at 1, execute at 1, ret at 1.
  cbn [db rng].
  unfold bind at 1.
  rewrite (award_phase_run _ _ _ _ Hk).
  - reflexivity.
  - intros c Hc. cbn [db].
    apply (select_after_settle performance_id _ _ _ _ (db w) c Hk Hc).
Qed.
End Settle.

Section Inversion.
Local Open Scope Z_scope.
Local Open Scope monad_scope.

Lemma actors_bonus_loop_Ok (actors : list CastRow.t) :
  forall (acc b : Q),
    actors_bonus_loop actors acc = Ok b ->
    Forall (fun c => known_rank (CastRow.rank c)) actors.
Proof.
  induction actors as [|c rest IH]; intros acc b H; [constructor|].
  cbn [actors_bonus_loop] in H.
  destruct (index (CastRow.rank c) rank_order) as [i|e] eqn:E; [|discriminate H].
  cbn [res_bind] in H. constructor; [|exact (IH _ _ H)].
  destruct (index_Ok _ _ _ E) as [_ Hn]. exact (nth_error_In _ _ Hn).
Qed.

(** A settlement that answers [true] found a pending performance whose cast
    has known ranks. *)
Lemma settle_success_inv (performance_id : Z) (w w' : World) (r : reply) :
  calculate_performance_result performance_id w = (Ok (true, r), w') ->
  exists performance,
    pending performance_id (db w) performance
    /\ cast_ranks_known performance_id (db w).
Proof.
  unfold calculate_performance_result.
  unfold bind at 1. unfold get_performances, query.
  destruct (find _ (select_performances (db w))) as [performance|] eqn:Hfind;
    [|discriminate].
  destruct (Performance.is_completed performance) eqn:Hpend; [discriminate|].
  intros Hrun. exists performance. split; [split; assumption|].
  destruct (select_performances_plot (db w) performance) as (plot & Hplot).
  { apply find_some in Hfind. apply Hfind. }
  revert Hrun.
  unfold bind at 1. unfold get_plots, query.
  unfold bind at 1. rewrite Hplot. unfold subscriptable, ret at 1.
  unfold bind at 1. unfold get_actors_in_performance, query.
  unfold bind at 1. unfold Random.uniform, bind at 1, Random.random at 1, ret at 1.
  cbn [db rng].
  unfold bind at 1. unfold lift at 1.
  destruct (actors_match_requirements_of _ _) as [compliant|e]; [|discriminate].
  unfold bind at 1. unfold lift at 1.
  destruct (actors_bonus_loop _ _) as [bonus|e] eqn:Hbonus; [|discriminate].
  intros _. exact (actors_bonus_loop_Ok _ _ _ Hbonus).
Qed.

(** The settlement answers [true] exactly for a pending performance whose
    cast has ranks of the order. *)
Lemma settle_success_iff (performance_id : Z) (w : World) :
  (exists r w', calculate_performance_result performance_id w = (Ok (true, r), w'))
  <-> (exists performance,
          pending performance_id (db w) performance
          /\ cast_ranks_known performance_id (db w)).
Proof.
  split.
  - intros (r & w' & Hrun). exact (settle_success_inv _ _ _ _ Hrun).
  - intros (performance & Hp & Hk).
    destruct (settle_run _ _ _ Hp Hk) as (plot & compliant & bonus & H).
    cbv zeta in H. destruct H as (_ & _ & _ & Hrun).
    do 2 eexists. exact Hrun.
Qed.

End Inversion.


(** ** The tables after a settlement *)

Section Tables.
Local Open Scope Z_scope.

Lemma promoted_db_frame (actor_id : Z) (d : Db.t) :
  Db.plots (promoted_db actor_id d) = Db.plots d
  /\ Db.performances (promoted_db actor_id d) = Db.performances d
  /\ Db.actor_performances (promoted_db actor_id d) = Db.actor_performances d
  /\ Db.game_data (promoted_db actor_id d) = Db.game_data d.
Proof.
  unfold promoted_db. destruct (select_actor actor_id d) as [a|]; [|tauto].
  destruct (rank_index (Actor.rank a) <? 5); cbn; tauto.
Qed.

Lemma awards_fold_frame (top : list CastRow.t) :
  forall d : Db.t,
    let d' := fold_left (fun d c => add_award (CastRow.actor_id c) d) top d in
    Db.plots d' = Db.plots d
    /\ Db.performances d' = Db.performances d
    /\ Db.actor_performances d' = Db.actor_performances d
    /\ Db.game_data d' = Db.game_data d.
Proof.
  induction top as [|c rest IH]; intros d; cbn [fold_left]; [tauto|].
  specialize (IH (add_award (CastRow.actor_id c) d)). cbv zeta in IH.
  cbn in IH. exact IH.
Qed.

(** The awards and the promotion write the table of actors only. *)
Lemma awarded_db_frame (top : list CastRow.t) (b : bool) (d : Db.t) :
  Db.plots (awarded_db top b d) = Db.plots d
  /\ Db.performances (awarded_db top b d) = Db.performances d
  /\ Db.actor_performances (awarded_db top b d) = Db.actor_performances d
  /\ Db.game_data (awarded_db top b d) = Db.game_data d.
Proof.
  destruct top as [|c rest]; cbn [awarded_db]; [tauto|].
  destruct (awards_fold_frame rest
              (if b then promoted_db (CastRow.actor_id c)
                                     (add_award (CastRow.actor_id c) d)
               else add_award (CastRow.actor_id c) d)) as (H1 & H2 & H3 & H4).
  rewrite H1, H2, H3, H4.
  destruct b; [|cbn; tauto].
  destruct (promoted_db_frame (CastRow.actor_id c)
                              (add_award (CastRow.actor_id c) d))
    as (P1 & P2 & P3 & P4).
  rewrite P1, P2, P3, P4. cbn. tauto.
Qed.

Lemma final_db_performances (performance_id : Z) (actors : list CastRow.t)
      (f : Figures) (d : Db.t) :
  Db.performances (final_db performance_id actors f d)
  = map (fun p =>
           if Performance.performance_id p =? performance_id
           then Performance.mk (Performance.performance_id p)
                               (Performance.title p) (Performance.plot_id p)
                               (Performance.year p) (f_total_expenses f)
                               (f_total_revenue f) true
           else p)
        (Db.performances d).
Proof.
  unfold final_db.
  destruct (awarded_db_frame (awarded_of actors f) (promoting f)
              (settled_db performance_id (f_total_expenses f) (f_total_revenue f)
                          (f_saved_budget f) (f_unexpected_expenses f) d))
    as (_ & H & _).
  rewrite H. unfold settled_db, bump_experience, set_performance_completed,
    set_performance_budget. cbn. rewrite map_map. apply map_ext. intros p.
  destruct (Performance.performance_id p =? performance_id) eqn:E; cbn; rewrite E;
    reflexivity.
Qed.

Lemma final_db_game_data (performance_id : Z) (actors : list CastRow.t)
      (f : Figures) (d : Db.t) :
  Db.game_data (final_db performance_id actors f d)
  = GameData.mk (GameData.current_year (Db.game_data d) + 1)
                (GameData.capital (Db.game_data d) + f_total_revenue f
                 + f_saved_budget f - f_unexpected_expenses f).
Proof.
  unfold final_db.
  destruct (awarded_db_frame (awarded_of actors f) (promoting f)
              (settled_db performance_id (f_total_expenses f) (f_total_revenue f)
                          (f_saved_budget f) (f_unexpected_expenses f) d))
    as (_ & _ & _ & H).
  rewrite H. reflexivity.
Qed.

Lemma final_db_plots (performance_id : Z) (actors : list CastRow.t)
      (f : Figures) (d : Db.t) :
  Db.plots (final_db performance_id actors f d) = Db.plots d
  /\ Db.actor_performances (final_db performance_id actors f d)
     = Db.actor_performances d.
Proof.
  unfold final_db.
  destruct (awarded_db_frame (awarded_of actors f) (promoting f)
              (settled_db performance_id (f_total_expenses f) (f_total_revenue f)
                          (f_saved_budget f) (f_unexpected_expenses f) d))
    as (H1 & _ & H3 & _).
  rewrite H1, H3. split; reflexivity.
Qed.

End Tables.

(** ** Failure of the precondition *)

Section Precondition.
Local Open Scope Z_scope.





End Precondition.


(** ** The figures of a settlement *)

Section FiguresFacts.
Local Open Scope Z_scope.

Lemma inject_Z_nonneg (x : Z) : 0 <= x -> (0 <= inject_Z x)%Q.
Proof. intros H. change 0%Q with (inject_Z 0). rewrite <- Zle_Qle. exact H. Qed.

Lemma sumZ_nonneg (l : list Z) : (forall x, In x l -> 0 <= x) -> 0 <= sumZ l.
Proof.
  induction l as [|x l IH]; intros H; cbn [sumZ fold_right]; [lia|].
  fold (sumZ l). specialize (H x (or_introl eq_refl)) as Hx.
  assert (0 <= sumZ l) by (apply IH; intros y Hy; apply H; right; exact Hy). lia.
Qed.

Lemma sumQ_nonneg (l : list Q) :
  (forall x, In x l -> (0 <= x)%Q) -> (0 <= sumQ l)%Q.
Proof.
  induction l as [|x l IH]; intros H; cbn [sumQ fold_right]; [apply Qle_refl|].
  fold (sumQ l). pose proof (H x (or_introl eq_refl)) as Hx.
  assert (0 <= sumQ l)%Q by (apply IH; intros y Hy; apply H; right; exact Hy).
  clear - Hx H0. lra.
Qed.

(** What the CHECK constraints give for a row of the cast. *)
Lemma cast_row_checks (performance_id : Z) (d : Db.t) (c : CastRow.t) :
  checks d ->
  In c (select_actors_in_performance performance_id d) ->
  0 < CastRow.contract_cost c
  /\ 0 <= CastRow.awards_count c
  /\ 0 <= CastRow.experience c.
Proof.
  intros (Ha & _ & _ & Hap & _) Hc. apply cast_row_In in Hc.
  destruct Hc as (a & ap & Hina & Hinap & _ & E). subst c.
  rewrite Forall_forall in Ha, Hap.
  specialize (Ha a Hina). specialize (Hap ap Hinap).
  unfold CastRow.awards_count, CastRow.experience. cbn. lia.
Qed.

Lemma actual_budget_pos (performance_id : Z) (d : Db.t)
      (performance : Performance.t) (plot : Plot.t) :
  checks d ->
  pending performance_id d performance ->
  find (fun p => Plot.plot_id p =? Performance.plot_id performance) (Db.plots d)
  = Some plot ->
  0 < Z.min (Performance.budget performance)
            (total_spent_of plot (select_actors_in_performance performance_id d))
  /\ 1 <= Plot.demand plot <= 10.
Proof.
  intros Hc [Hfind _] Hplot.
  pose proof Hc as (_ & Hpl & Hpf & _).
  rewrite Forall_forall in Hpl, Hpf.
  apply find_some in Hfind. destruct Hfind as [Hin _].
  specialize (Hpf _ (select_performances_In _ _ Hin)).
  apply find_some in Hplot. destruct Hplot as [Hinp _].
  specialize (Hpl _ Hinp). rewrite total_spent_sum.
  assert (0 <= sumZ (map CastRow.contract_cost
                         (select_actors_in_performance performance_id d))).
  { apply sumZ_nonneg. intros x Hx. apply in_map_iff in Hx.
    destruct Hx as (c & <- & Hcin).
    destruct (cast_row_checks _ _ _ Hc Hcin) as [L _]. lia. }
  lia.
Qed.

Lemma bonus_term_nonneg (c : CastRow.t) :
  known_rank (CastRow.rank c) ->
  0 < CastRow.contract_cost c ->
  0 <= CastRow.awards_count c ->
  0 <= CastRow.experience c ->
  (0 <= bonus_term c)%Q.
Proof.
  intros Hk Hc Ha He. destruct (rank_index_known _ Hk) as [_ Hr].
  unfold bonus_term.
  assert (H1 : (0 <= inject_Z (CastRow.contract_cost c))%Q)
    by (apply inject_Z_nonneg; lia).
  assert (H2 : (0 <= inject_Z (rank_index (CastRow.rank c)))%Q)
    by (apply inject_Z_nonneg; lia).
  assert (H3 : (0 <= inject_Z (CastRow.awards_count c))%Q)
    by (apply inject_Z_nonneg; lia).
  assert (H4 : (0 <= inject_Z (CastRow.experience c))%Q)
    by (apply inject_Z_nonneg; lia).
  clear - H1 H2 H3 H4.
  repeat apply Qmult_le_0_compat; try assumption; lra.
Qed.

Lemma float_lt_dec (x y : Q) :
  float_lt x y = if Qlt_le_dec x y then true else false.
Proof.
  destruct (Qlt_le_dec x y) as [L|L].
  - apply float_lt_true, L.
  - apply float_lt_false, L.
Qed.

(** The multiplier is the uniform value on the range of the tier. *)
Lemma random_factor_tier (compliant : bool) (r u : Q) :
  random_factor_value compliant r u
  = uniform_of (fst (multiplier_range compliant (tier_of compliant r)))
               (snd (multiplier_range compliant (tier_of compliant r))) u.
Proof.
  unfold random_factor_value, tier_of. rewrite !float_lt_dec.
  destruct compliant;
    repeat match goal with
           | |- context [Qlt_le_dec ?x ?y] => destruct (Qlt_le_dec x y)
           end; reflexivity.
Qed.

Lemma multiplier_range_bounds (compliant : bool) (t : tier) :
  (0.3 <= fst (multiplier_range compliant t)
   /\ fst (multiplier_range compliant t) <= snd (multiplier_range compliant t)
   /\ snd (multiplier_range compliant t) <= 1.4)%Q.
Proof.
  destruct t, compliant; cbn; repeat split; unfold Qle; cbn; lia.
Qed.


(** The revenue is the floor of the exact product, which is at least 15% of
    the actual budget. *)
Lemma revenue_floor (performance_id : Z) (d : Db.t) (performance : Performance.t)
      (plot : Plot.t) (compliant : bool) (r u : Q) :
  checks d ->
  pending performance_id d performance ->
  find (fun p => Plot.plot_id p =? Performance.plot_id performance) (Db.plots d)
  = Some plot ->
  cast_ranks_known performance_id d ->
  unit_draw u ->
  let actors := select_actors_in_performance performance_id d in
  let ab := Z.min (Performance.budget performance) (total_spent_of plot actors) in
  let t := tier_of compliant r in
  let m := uniform_of (fst (multiplier_range compliant t))
                      (snd (multiplier_range compliant t)) u in
  let exact :=
    ((inject_Z ab * (0.7 + 0.08 * inject_Z (Plot.demand plot))
      + sumQ (map bonus_term actors)) * m)%Q in
  int ((base_revenue_of ab plot
        + fold_left
            (fun acc c =>
               acc + actor_contribution c (rank_index (CastRow.rank c)))
            actors 0)
       * random_factor_value compliant r u)%Q
  = Qfloor exact
  /\ (inject_Z ab * 0.15 <= exact)%Q
  /\ (fst (multiplier_range compliant t) <= m
      /\ m <= snd (multiplier_range compliant t))%Q.
Proof.
  intros Hc Hp Hplot Hk Hu actors ab t m exact.
  destruct (actual_budget_pos _ _ _ _ Hc Hp Hplot) as [Hab Hd].
  fold actors ab in Hab.
  destruct (multiplier_range_bounds compliant t) as (Hlo & Hlh & Hhi).
  assert (Hm := uniform_of_range _ _ _ Hlh Hu). fold m in Hm.
  assert (H1 : (0 <= inject_Z ab)%Q) by (apply inject_Z_nonneg; lia).
  assert (H2 : (1 <= inject_Z (Plot.demand plot))%Q).
  { change 1%Q with (inject_Z 1). rewrite <- Zle_Qle. lia. }
  assert (H3 : (0 <= sumQ (map bonus_term actors))%Q).
  { apply sumQ_nonneg. intros x Hx. apply in_map_iff in Hx.
    destruct Hx as (c & <- & Hcin).
    destruct (cast_row_checks _ _ _ Hc Hcin) as (L1 & L2 & L3).
    unfold cast_ranks_known in Hk. rewrite Forall_forall in Hk.
    apply bonus_term_nonneg; auto. }
  assert (Hlow : (inject_Z ab * 0.15 <= exact)%Q).
  { unfold exact.
    assert (P1 : (0 <= inject_Z ab * (inject_Z (Plot.demand plot) - 1))%Q).
    { apply Qmult_le_0_compat; [exact H1|]. clear - H2. lra. }
    set (base := (inject_Z ab * (0.7 + 0.08 * inject_Z (Plot.demand plot))
                  + sumQ (map bonus_term actors))%Q).
    assert (P2 : (inject_Z ab * 0.78 <= base)%Q).
    { unfold base. clear - P1 H3. lra. }
    assert (P3 : (0 <= base * (m - 0.3))%Q).
    { apply Qmult_le_0_compat; [clear - P2 H1; lra | clear - Hm Hlo; lra]. }
    clear - P2 P3 H1. lra. }
  assert (E : ((base_revenue_of ab plot
                + fold_left
                    (fun acc c =>
                       acc + actor_contribution c (rank_index (CastRow.rank c)))
                    actors 0)
               * random_factor_value compliant r u == exact)%Q).
  { rewrite random_factor_tier, bonus_fold_sum. fold t m.
    unfold exact, base_revenue_of. ring. }
  split; [|split; [exact Hlow | exact Hm]].
  rewrite int_floor.
  - apply Qfloor_comp, E.
  - rewrite E. clear - Hlow H1. lra.
Qed.

End FiguresFacts.


(** ** The sample theatre meets the hypotheses *)

Section SampleFacts.
Local Open Scope Z_scope.







End SampleFacts.

(** ** Budget, expenses and revenue *)

Section Revenue.
Local Open Scope Z_scope.





End Revenue.


(** ** The persisted updates *)

Section Updates.
Local Open Scope Z_scope.


Lemma add_award_keeps (actor_id : Z) (d : Db.t) :
  exists g, keeps_experience g
            /\ Db.actors (add_award actor_id d) = map g (Db.actors d).
Proof.
  eexists. split; [|reflexivity]. intros a. cbv beta.
  destruct (Actor.actor_id a =? actor_id); repeat split; cbn; lia.
Qed.

Lemma promoted_db_keeps (actor_id : Z) (d : Db.t) :
  exists g, keeps_experience g
            /\ Db.actors (promoted_db actor_id d) = map g (Db.actors d).
Proof.
  unfold promoted_db.
  assert (Hid : exists g, keeps_experience g /\ Db.actors d = map g (Db.actors d)).
  { exists (fun a => a). split; [intros a; repeat split; lia|].
    symmetry. apply map_id. }
  destruct (select_actor actor_id d) as [a0|]; [|exact Hid].
  destruct (rank_index (Actor.rank a0) <? 5); [|exact Hid].
  eexists. split; [|reflexivity]. intros a. cbv beta.
  destruct (Actor.actor_id a =? actor_id); repeat split; cbn; lia.
Qed.

Lemma keeps_compose (g h : Actor.t -> Actor.t) :
  keeps_experience g -> keeps_experience h ->
  keeps_experience (fun a => h (g a)).
Proof.
  intros Hg Hh a. destruct (Hg a) as (G1 & G2 & G3).
  destruct (Hh (g a)) as (H1 & H2 & H3).
  repeat split; [congruence | congruence | lia].
Qed.

Lemma awards_fold_keeps (top : list CastRow.t) :
  forall d : Db.t,
  exists g,
    keeps_experience g
    /\ Db.actors (fold_left (fun d c => add_award (CastRow.actor_id c) d) top d)
       = map g (Db.actors d).
Proof.
  induction top as [|c rest IH]; intros d; cbn [fold_left].
  - exists (fun a => a). split; [intros a; repeat split; lia|].
    symmetry. apply map_id.
  - destruct (IH (add_award (CastRow.actor_id c) d)) as (h & Hh & Eh).
    destruct (add_award_keeps (CastRow.actor_id c) d) as (g & Hg & Eg).
    exists (fun a => h (g a)). split; [apply keeps_compose; assumption|].
    rewrite Eh, Eg, map_map. reflexivity.
Qed.

(** The awards and the promotion keep the ids and the experience. *)
Lemma awarded_db_keeps (top : list CastRow.t) (b : bool) (d : Db.t) :
  exists g, keeps_experience g
            /\ Db.actors (awarded_db top b d) = map g (Db.actors d).
Proof.
  destruct top as [|c rest]; cbn [awarded_db].
  - exists (fun a => a). split; [intros a; repeat split; lia|].
    symmetry. apply map_id.
  - destruct (add_award_keeps (CastRow.actor_id c) d) as (g1 & H1 & E1).
    destruct (promoted_db_keeps (CastRow.actor_id c)
                                (add_award (CastRow.actor_id c) d))
      as (g2 & H2 & E2).
    destruct b.
    + destruct (awards_fold_keeps rest
                  (promoted_db (CastRow.actor_id c)
                               (add_award (CastRow.actor_id c) d)))
        as (g3 & H3 & E3).
      exists (fun a => g3 (g2 (g1 a))). split.
      * apply (keeps_compose (fun a => g2 (g1 a)) g3); [|exact H3].
        apply keeps_compose; assumption.
      * rewrite E3, E2, E1, !map_map. reflexivity.
    + destruct (awards_fold_keeps rest (add_award (CastRow.actor_id c) d))
        as (g3 & H3 & E3).
      exists (fun a => g3 (g1 a)). split; [apply keeps_compose; assumption|].
      rewrite E3, E1, map_map. reflexivity.
Qed.




End Updates.


(** ** The rank check *)

Section Compliance.
Local Open Scope Z_scope.





(** A cast that breaks the requirements is settled all the same: the roll
    0.5 is then a failure, with the multiplier 0.3 + 0.2 * 0.5; the loss
    leaves the cast without awards. *)
Example miscast_settles :
  actors_match_requirements_of
    [ "Мастер"; "Заслуженный" ]%string
    (select_actors_in_performance 4 (db Sample.miscast_world)) = Ok false
  /\ tier_of false (1 # 2) = FAILURE
  /\ exists s w',
      calculate_performance_result 4 Sample.miscast_world
      = (Ok (true, Result s), w')
      /\ revenue s = 803968
      /\ profit s = -186032
      /\ awarded_actors s = [].
Proof.
  split; [vm_compute; reflexivity|]. split; [reflexivity|].
  do 2 eexists. split; [vm_compute; reflexivity|]. repeat split.
Qed.

End Compliance.


(** ** The order of the awards *)

Section SortedDesc.
Context {K A : Type} (ltb : K -> K -> bool).
Hypothesis ltb_asym : forall a b, ltb a b = true -> ltb b a = false.
Hypothesis ltb_negtrans :
  forall a b c, ltb a b = false -> ltb b c = false -> ltb a c = false.




End SortedDesc.

Section AwardOrder.
Local Open Scope Z_scope.




End AwardOrder.


(** ** Keys *)

Section Keys.
Local Open Scope Z_scope.






End Keys.


(** ** Awards and promotion *)

Section Awards.
Local Open Scope Z_scope.


Lemma settled_actor_award (a : Actor.t) :
  settled_actor false true false a
  = Actor.set_awards_count (Actor.awards_count a + 1) a.
Proof. destruct a. row_done. Qed.

Lemma settled_actor_promoted (a : Actor.t) :
  settled_actor false true true a
  = Actor.set_rank (next_rank (Actor.rank a))
                   (Actor.set_awards_count (Actor.awards_count a + 1) a).
Proof. destruct a. row_done. Qed.













End Awards.


(** ** The writes respect the CHECK constraints

    The embedding follows the runs in which the server accepts the
    statements.  For the settlement and the year skip no CHECK constraint of
    the schema stands in the way: the written values satisfy them. *)

Section ChecksKept.
Local Open Scope Z_scope.

Lemma settlement_keeps_checks (performance_id : Z) (w : World)
      (performance : Performance.t) :
  pending performance_id (db w) performance ->
  cast_ranks_known performance_id (db w) ->
  checks (db w) ->
  unit_draw (draw w 0) ->
  unit_draw (draw w 2) ->
  exists s w',
    calculate_performance_result performance_id w = (Ok (true, Result s), w')
    /\ 0 <= unexpected_expenses s <= revenue s
    /\ 0 < budget s
    /\ 0 <= saved_budget s
    /\ checks (db w').
Proof.
  intros Hp Hk Hc Hu0 Hu2.
  destruct (settle_run _ _ _ Hp Hk) as (plot & compliant & bonus & H).
  cbv zeta in H. destruct H as (Hplot & Hflag & Hbonus & Hrun).
  rewrite (actors_bonus_loop_known _ Hk) in Hbonus. injection Hbonus as <-.
  destruct (actual_budget_pos _ _ _ _ Hc Hp Hplot) as [Hab _].
  destruct (revenue_floor performance_id (db w) performance plot compliant
                          (draw w 1) (draw w 2) Hc Hp Hplot Hk Hu2)
    as (Hrev & Hlow & _).
  cbv zeta in Hrev, Hlow.
  set (actors := select_actors_in_performance performance_id (db w)) in *.
  set (ab := Z.min (Performance.budget performance) (total_spent_of plot actors))
    in *.
  assert (Hr : (0.05 <= uniform_of 0.05 0.15 (draw w 0)
                /\ uniform_of 0.05 0.15 (draw w 0) <= 0.15)%Q).
  { apply uniform_of_range; [|exact Hu0]. unfold Qle; cbn; lia. }
  assert (H1 : (0 <= inject_Z ab)%Q) by (apply inject_Z_nonneg; lia).
  assert (Hy : (0 <= inject_Z ab * uniform_of 0.05 0.15 (draw w 0))%Q).
  { apply Qmult_le_0_compat; [exact H1 | clear - Hr; lra]. }
  assert (Hy2 : (inject_Z ab * uniform_of 0.05 0.15 (draw w 0)
                 <= inject_Z ab * 0.15)%Q).
  { assert (P : (0 <= inject_Z ab * (0.15 - uniform_of 0.05 0.15 (draw w 0)))%Q).
    { apply Qmult_le_0_compat; [exact H1 | clear - Hr; lra]. }
    clear - P. lra. }
  set (f := figures performance plot actors compliant
                    (fold_left
                       (fun acc c =>
                          (acc + actor_contribution c (rank_index (CastRow.rank c)))%Q)
                       actors 0%Q)
                    (draw w 0) (draw w 1) (draw w 2)) in *.
  assert (Fu : f_unexpected_expenses f
               = Qfloor (inject_Z ab * uniform_of 0.05 0.15 (draw w 0))).
  { unfold f. cbn [figures f_unexpected_expenses]. apply int_floor, Hy. }
  assert (Fr : f_total_revenue f = Qfloor
                 ((inject_Z ab * (0.7 + 0.08 * inject_Z (Plot.demand plot))
                   + sumQ (map bonus_term actors))
                  * uniform_of
                      (fst (multiplier_range compliant
                                             (tier_of compliant (draw w 1))))
                      (snd (multiplier_range compliant
                                             (tier_of compliant (draw w 1))))
                      (draw w 2))).
  { unfold f. cbn [figures f_total_revenue]. exact Hrev. }
  assert (U0 : 0 <= f_unexpected_expenses f).
  { rewrite Fu. change 0 with (Qfloor 0). apply Qfloor_resp_le, Hy. }
  assert (UR : f_unexpected_expenses f <= f_total_revenue f).
  { rewrite Fu, Fr. apply Qfloor_resp_le.
    eapply Qle_trans; [exact Hy2 | exact Hlow]. }
  assert (Fe : f_total_expenses f = ab + f_unexpected_expenses f) by reflexivity.
  assert (Fs : f_saved_budget f = Performance.budget performance - ab)
    by reflexivity.
  do 2 eexists. split; [exact Hrun|].
  cbn [settlement_of unexpected_expenses revenue budget saved_budget db].
  split; [lia|]. split; [lia|]. split; [lia|].
  destruct Hc as (Ca & Cp & Cf & Cap & Cy & Cc).
  unfold checks.
  rewrite final_db_performances, final_db_game_data.
  destruct (final_db_plots performance_id actors f (db w)) as [E1 E2].
  rewrite E1, E2. cbn [GameData.current_year GameData.capital].
  split; [|split; [exact Cp|split; [|split; [exact Cap|split; lia]]]].
  - unfold final_db.
    destruct (awarded_db_keeps (awarded_of actors f) (promoting f)
                (settled_db performance_id (f_total_expenses f)
                            (f_total_revenue f) (f_saved_budget f)
                            (f_unexpected_expenses f) (db w)))
      as (g & Hg & Eg).
    rewrite Eg. unfold settled_db, bump_experience. cbn. rewrite map_map.
    rewrite Forall_forall in *. intros a' Hin. apply in_map_iff in Hin.
    destruct Hin as (a & <- & Hin). specialize (Ca a Hin).
    destruct (Hg (if existsb (plays_in performance_id a)
                             (Db.actor_performances (db w))
                  then Actor.set_experience (Actor.experience a + 1) a else a))
      as (_ & G2 & G3).
    rewrite G2. destruct (existsb _ _);
      cbn [Actor.experience Actor.awards_count Actor.set_experience] in *; lia.
  - rewrite Forall_forall in *. intros p' Hin. apply in_map_iff in Hin.
    destruct Hin as (p & <- & Hin). specialize (Cf p Hin).
    destruct (Performance.performance_id p =? performance_id);
      cbn [Performance.year Performance.budget Performance.revenue]; lia.
Qed.

Lemma skip_year_keeps_checks (w : World) :
  checks (db w) ->
  unit_draw (draw w 0) ->
  checks (db (snd (skip_year w))).
Proof.
  intros (Ca & Cp & Cf & Cap & Cy & Cc) Hu. rewrite skip_year_run. cbv zeta.
  cbn [snd db]. unfold checks. cbn.
  repeat split; try assumption; try lia.
  assert (Hr : (0.1 <= uniform_of 0.1 0.2 (draw w 0)
                /\ uniform_of 0.1 0.2 (draw w 0) <= 0.2)%Q).
  { apply uniform_of_range; [|exact Hu]. unfold Qle; cbn; lia. }
  assert (Hp : (0 <= inject_Z (GameData.capital (Db.game_data (db w)))
                     * uniform_of 0.1 0.2 (draw w 0))%Q).
  { apply Qmult_le_0_compat; [apply inject_Z_nonneg; lia | clear - Hr; lra]. }
  rewrite (int_floor _ Hp).
  assert (0 <= Qfloor (inject_Z (GameData.capital (Db.game_data (db w)))
                       * uniform_of 0.1 0.2 (draw w 0))).
  { change 0 with (Qfloor 0). apply Qfloor_resp_le, Hp. }
  lia.
Qed.

End ChecksKept.
